(** * PhotoManager-API: the token lifecycle of [AuthService]

    A shallow embedding of [src/auth/auth.service.ts].  The service is
    asynchronous TypeScript that talks to six collaborators (the clock,
    the uuid generator, the configuration, the JWT library, Google's OAuth
    client and the repository's [UserService]).  Every call to a
    collaborator is an event of a small free monad [Prog]; the methods of
    the class are programs over these events, written in the order the
    source performs the calls.  An interpreter [run] executes a program
    against a handler for the events and records the calls it performed,
    with their answers. *)

From Stdlib Require Import ZArith Lia.
From stdpp Require Import base option strings pretty gmap list.

Open Scope Z_scope.
Open Scope string_scope.

(** ** JavaScript values *)

Inductive JsVal : Type :=
| JUndefined
| JNull
| JBool (b : bool)
| JNum (n : Z)
| JStr (s : string)
| JNums (l : list Z).

#[global] Instance JsVal_eq_dec : EqDecision JsVal.
Proof. solve_decision. Defined.

(** An object literal or a decoded JSON object.  A property that holds
    [undefined] is represented by the absence of its key: a property read
    and the JSON serialisation performed by [sign] cannot tell them apart. *)
Abbreviation JsObject := (gmap string JsVal).

(** [o.k] *)
Definition get (o : JsObject) (k : string) : JsVal :=
  default JUndefined (o !! k).

(** [{ ...o, k: v }] *)
Definition set (k : string) (v : JsVal) (o : JsObject) : JsObject :=
  match v with
  | JUndefined => delete k o
  | _ => <[k := v]> o
  end.

Arguments get : simpl never.
Arguments set : simpl never.

(** [{ ...o }] where [o] may be [null]: spreading [null] copies nothing. *)
Definition spread (o : option JsObject) : JsObject := default ∅ o.

(** [o?.k] *)
Definition get_opt (o : option JsObject) (k : string) : JsVal :=
  match o with
  | Some p => get p k
  | None => JUndefined
  end.

(** ToBoolean, as used by [if (v)] and [a && b]. *)
Definition truthy (v : JsVal) : bool :=
  match v with
  | JUndefined | JNull => false
  | JBool b => b
  | JNum n => negb (Z.eqb n 0)
  | JStr s => negb (String.eqb s "")
  | JNums _ => true
  end.

(** A string argument that the caller may have left out. *)
Definition of_arg (a : option string) : JsVal :=
  match a with
  | Some s => JStr s
  | None => JUndefined
  end.

(** ** Exceptions *)

Module HttpStatus.
Definition BAD_REQUEST : Z := 400.
Definition UNAUTHORIZED : Z := 401.
Definition NOT_FOUND : Z := 404.
End HttpStatus.

Inductive Exn : Type :=
| HttpException (response : string) (status : Z)
| TypeError (message : string)
| Error (message : string).

(** [error.status] *)
Definition status (error : Exn) : option Z :=
  match error with
  | HttpException _ s => Some s
  | _ => None
  end.

(** [error.status === HttpStatus.NOT_FOUND] *)
Definition is_not_found (error : Exn) : bool :=
  match status error with
  | Some s => Z.eqb s HttpStatus.NOT_FOUND
  | None => false
  end.

(** ** Data of the service *)

(** Modelled from the spec: the members of the enum [AuthProvider] are
    declared in [src/constants], which is missing; the spec gives
    [enum{Google, …}], so every tag other than [Google] is kept as an
    unsupported provider. *)
Inductive AuthProvider : Type :=
| Google
| UnsupportedProvider (tag : string).

(** Modelled from the spec: the schema of [UserDocument] is declared in
    [src/users/user.schema], which is missing; the spec gives the record
    shape [{id, name, email, refreshToken: string|absent}]. *)
Record UserDocument : Type := mkUser {
  _id : string;
  name : JsVal;
  email : JsVal;
  storedRefreshToken : option string
}.

(** The object [{ accessToken, refreshToken }] returned to the caller. *)
Record TokenPair : Type := mkPair {
  accessToken : string;
  refreshToken : string
}.

(** ** Calls to collaborators *)

Inductive Event : Type -> Type :=
| DateNow : Event Z
| Uuidv4 : Event string
| ConfigGet (key : string) : Event (option string)
| JwtSign (payload : JsObject) (secret : option string) : Event string
| JwtVerify (token : string) (secret : option string) : Event JsObject
| JwtDecode (token : option string) : Event (option JsObject)
| GoogleVerifyIdToken (idToken : string) (audience : option string)
    : Event (option JsObject)
| UsGetById (userId : JsVal) : Event UserDocument
| UsGetByEmail (email : JsVal) : Event UserDocument
| UsCreate (name email : JsVal) : Event UserDocument
| UsSaveRefreshToken (userId : JsVal) (token : option string) : Event unit
| UsGetUserIfRefreshTokenMatches (userId : JsVal) (token : option string)
    : Event UserDocument.

(** A call together with its answer, for the transcript of a run. *)
Inductive Call : Type :=
| Called {X : Type} (ev : Event X) (answer : Exn + X).

(** Calls that read or write the user store. *)
Definition is_store_call (c : Call) : bool :=
  match c with
  | Called (UsGetById _) _ | Called (UsGetByEmail _) _
  | Called (UsCreate _ _) _ | Called (UsSaveRefreshToken _ _) _
  | Called (UsGetUserIfRefreshTokenMatches _ _) _ => true
  | _ => false
  end.

(** The user and the value of a write to the refresh-token field. *)
Definition token_write (c : Call) : option (JsVal * option string) :=
  match c with
  | Called (UsSaveRefreshToken userId token) _ => Some (userId, token)
  | _ => None
  end.

(** Calls to [jwtService.verify]. *)
Definition is_verify_call (c : Call) : bool :=
  match c with
  | Called (JwtVerify _ _) _ => true
  | _ => false
  end.

(** The claims and the token of a call to [jwtService.sign] that returned. *)
Definition issued (c : Call) : option (JsObject * string) :=
  match c with
  | Called ev answer =>
      match ev in Event X return Exn + X -> option (JsObject * string) with
      | JwtSign payload _ =>
          fun answer =>
            match answer with
            | inr token => Some (payload, token)
            | inl _ => None
            end
      | _ => fun _ => None
      end answer
  end.

(** ** Programs *)

(** A collaborator answers a call with a value or by throwing. *)
Inductive Prog (A : Type) : Type :=
| Ret (a : A)
| Throw (error : Exn)
| Vis {X : Type} (ev : Event X) (k : Exn + X -> Prog A).

Arguments Ret {A} a.
Arguments Throw {A} error.
Arguments Vis {A X} ev k.

(** [await collaborator.method(...)]: an exception thrown by the callee
    continues as an exception of the caller. *)
Definition call {X : Type} (ev : Event X) : Prog X :=
  Vis ev (fun r => match r with inl error => Throw error | inr x => Ret x end).

Fixpoint bind {A B : Type} (p : Prog A) (k : A -> Prog B) : Prog B :=
  match p with
  | Ret a => k a
  | Throw error => Throw error
  | Vis ev c => Vis ev (fun r => bind (c r) k)
  end.

#[global] Instance Prog_ret : MRet Prog := @Ret.
#[global] Instance Prog_bind : MBind Prog := fun A B k p => bind p k.

(** [try { x = p; return k(x) } catch (error) { h(error) }] where only [p]
    is protected. *)
Fixpoint try_bind {A B : Type} (p : Prog A) (k : A -> Prog B)
    (h : Exn -> Prog B) : Prog B :=
  match p with
  | Ret a => k a
  | Throw error => h error
  | Vis ev c => Vis ev (fun r => try_bind (c r) k h)
  end.

(** [try { return p } catch (error) { h(error) }] *)
Definition try_catch {A : Type} (p : Prog A) (h : Exn -> Prog A) : Prog A :=
  try_bind p Ret h.

(** ** The service: [class AuthService] *)

Module AuthService.

(** [getAccessToken(payload)] *)
Definition getAccessToken (payload : JsObject) : Prog string :=
  now ← call DateNow;
  let timestamp := now / 1000 in
  let jwtTTL := 300 in
  secret ← call (ConfigGet "JWT_SECRET");
  call (JwtSign
          (set "exp" (JNum (timestamp + jwtTTL))
             (set "iat" (JNum timestamp) payload))
          secret).

(** [verifyAccessToken(accessToken)] *)
Definition verifyAccessToken (accessToken : string) : Prog JsObject :=
  try_catch
    (secret ← call (ConfigGet "JWT_SECRET");
     call (JwtVerify accessToken secret))
    (fun _ =>
       Throw (HttpException "Authorization token expired"
                HttpStatus.UNAUTHORIZED)).

(** [verifyIdToken(idToken, provider)].  The [switch] has one case and no
    default: with any other provider the function body ends without a
    [return] and the promise resolves to [undefined]. *)
Definition verifyIdToken (idToken : string) (provider : AuthProvider)
    : Prog (option JsObject) :=
  try_catch
    (match provider with
     | Google =>
         audience ← call (ConfigGet "GOOGLE_CLIENT_ID");
         ticket ← call (GoogleVerifyIdToken idToken audience);
         match ticket with
         | Some payload =>
             Ret (Some (set "email" (get payload "email")
                          (set "name" (get payload "name") ∅)))
         | None => Throw (TypeError "Cannot destructure 'undefined'")
         end
     | UnsupportedProvider _ => Ret None
     end)
    (fun _ =>
       Throw (HttpException "idToken not valid" HttpStatus.UNAUTHORIZED)).

(** [register(tokenPayload)].  The argument is optional because [login]
    hands over its local variable, which is [undefined] until
    [verifyIdToken] has returned. *)
Definition register (tokenPayload : option JsObject) : Prog TokenPair :=
  match tokenPayload with
  | None => Throw (TypeError "Cannot read properties of undefined")
  | Some tokenPayload =>
      user ← call (UsCreate (get tokenPayload "name")
                     (get tokenPayload "email"));
      let userId := JStr (_id user) in
      refreshToken ← call Uuidv4;
      accessToken ← getAccessToken (set "userId" userId tokenPayload);
      call (UsSaveRefreshToken userId (Some refreshToken));;
      Ret (mkPair accessToken refreshToken)
  end.

(** The statements of [login]'s [try] block after the assignment of
    [tokenPayload]. *)
Definition login_body (tokenPayload : option JsObject) : Prog TokenPair :=
  match tokenPayload with
  | None => Throw (TypeError "Cannot read properties of undefined")
  | Some tokenPayload =>
      user ← call (UsGetByEmail (get tokenPayload "email"));
      let userId := JStr (_id user) in
      refreshToken ← call Uuidv4;
      accessToken ← getAccessToken (set "userId" userId tokenPayload);
      call (UsSaveRefreshToken userId (Some refreshToken));;
      Ret (mkPair accessToken refreshToken)
  end.

(** [login]'s [catch] block; [tokenPayload] is the value of the local
    variable when the exception was thrown. *)
Definition login_catch (tokenPayload : option JsObject) (error : Exn)
    : Prog TokenPair :=
  if is_not_found error then register tokenPayload else Throw error.

(** [login(idToken, provider)].  One [try] block covers the whole body;
    the handler reads the variable [tokenPayload], which is unassigned
    while [verifyIdToken] runs and assigned afterwards. *)
Definition login (idToken : string) (provider : AuthProvider)
    : Prog TokenPair :=
  try_bind (verifyIdToken idToken provider)
    (fun tokenPayload =>
       try_catch (login_body tokenPayload) (login_catch tokenPayload))
    (login_catch None).

(** [silentLogin(accessToken)] *)
Definition silentLogin (accessToken : string) : Prog TokenPair :=
  tokenPayload ← verifyAccessToken accessToken;
  refreshToken ← call Uuidv4;
  call (UsGetById (get tokenPayload "userId"));;
  call (UsSaveRefreshToken (get tokenPayload "userId") (Some refreshToken));;
  accessToken ← getAccessToken tokenPayload;
  Ret (mkPair accessToken refreshToken).

(** [logout(accessToken)] *)
Definition logout (accessToken : string) : Prog unit :=
  tokenPayload ← verifyAccessToken accessToken;
  call (UsSaveRefreshToken (get tokenPayload "userId") None).

(** [refreshToken(accessToken, refreshToken)].  The result is [None]
    when the function ends without a [return]. *)
Definition refreshToken (accessToken refreshToken : option string)
    : Prog (option TokenPair) :=
  tokenPayload ← call (JwtDecode accessToken);
  if truthy (of_arg accessToken) && truthy (of_arg refreshToken)
     && truthy (get_opt tokenPayload "userId")
  then
    user ← call (UsGetUserIfRefreshTokenMatches
                   (get_opt tokenPayload "userId") refreshToken);
    let userId := JStr (_id user) in
    if truthy userId then
      refreshToken ← call Uuidv4;
      accessToken ← getAccessToken (spread tokenPayload);
      call (UsSaveRefreshToken userId (Some refreshToken));;
      Ret (Some (mkPair accessToken refreshToken))
    else Ret None
  else Throw (HttpException "Bad token request" HttpStatus.BAD_REQUEST).

End AuthService.

(** The exception of the guard of [refreshToken]. *)
Definition BadRequest : Exn :=
  HttpException "Bad token request" HttpStatus.BAD_REQUEST.

(** What [getAccessToken] requires of signed claims when the clock reads
    [t] milliseconds. *)
Definition timely (t : Z) (claims : JsObject) : Prop :=
  get claims "iat" = JNum (t / 1000)
  /\ get claims "exp" = JNum (t / 1000 + 300).

(** ** Running a program *)

(** A handler answers each call in a state of the outside world. *)
Definition Handler (W : Type) : Type :=
  forall X : Type, Event X -> W -> (Exn + X) * W.

(** What a run leaves behind: the value returned or the exception thrown,
    the world afterwards, and the calls performed, in order. *)
Record Run (W A : Type) : Type := mkRun {
  outcome : Exn + A;
  world : W;
  calls : list Call
}.

Arguments mkRun {W A} outcome world calls.
Arguments outcome {W A} r.
Arguments world {W A} r.
Arguments calls {W A} r.

Fixpoint run {W A : Type} (h : Handler W) (p : Prog A) (w : W) : Run W A :=
  match p with
  | Ret a => mkRun (inr a) w []
  | Throw error => mkRun (inl error) w []
  | Vis ev k =>
      let '(answer, w1) := h _ ev w in
      let r := run h (k answer) w1 in
      mkRun (outcome r) (world r) (Called ev answer :: calls r)
  end.

(** A run continued by a second one: the result and the world are those of
    the second run, the transcript is the concatenation. *)
Definition continued {W A B : Type} (first : Run W A) (second : Run W B)
    : Run W B :=
  mkRun (outcome second) (world second) (calls first ++ calls second).


(** A run that stopped with an exception, at another result type. *)
Definition failed {W A B : Type} (first : Run W A) (error : Exn) : Run W B :=
  mkRun (inl error) (world first) (calls first).

(** ** The user store *)

Module UserService.

(** Modelled from the spec: the failure kind [NotFound] of the missing
    [UserService], an exception of status 404 as [login] tests it. *)
Definition NotFound : Exn :=
  HttpException "Not Found" HttpStatus.NOT_FOUND.

(** Modelled from the spec: [UserService] is declared in
    [src/users/user.service], which is missing; the collection is kept
    as the list of its documents in insertion order, and a query by id
    selects the first document with that id. *)
Definition findById (userId : JsVal) (users : list UserDocument)
    : option UserDocument :=
  match userId with
  | JStr s => List.find (fun u => String.eqb (_id u) s) users
  | _ => None
  end.

(** Modelled from the spec: [getById(userId) -> UserRecord | fails
    NotFound] of the missing [UserService]. *)
Definition getById (userId : JsVal) (users : list UserDocument)
    : Exn + UserDocument :=
  match findById userId users with
  | Some user => inr user
  | None => inl NotFound
  end.

(** Modelled from the spec: [getByEmail(email) -> UserRecord | fails
    NotFound] of the missing [UserService]. *)
Definition getByEmail (email' : JsVal) (users : list UserDocument)
    : Exn + UserDocument :=
  match List.find (fun u => bool_decide (email u = email')) users with
  | Some user => inr user
  | None => inl NotFound
  end.

(** Modelled from the spec: [create(name, email) -> UserRecord (assigns
    new userId)] of the missing [UserService]; the new document holds no
    refresh token and its id occurs in no other document. *)
Definition create (name' email' : JsVal) (users : list UserDocument)
    : UserDocument * list UserDocument :=
  let user := mkUser (fresh (_id <$> users)) name' email' None in
  (user, (users ++ [user])%list).

(** Modelled from the spec: [saveRefreshToken(userId, token | absent) ->
    void] of the missing [UserService]; the one stored value is
    overwritten, and nothing happens when no document has the id. *)
Fixpoint saveRefreshToken (userId : JsVal) (token : option string)
    (users : list UserDocument) : list UserDocument :=
  match users with
  | [] => []
  | u :: rest =>
      if bool_decide (JStr (_id u) = userId)
      then mkUser (_id u) (name u) (email u) token :: rest
      else u :: saveRefreshToken userId token rest
  end.

(** Modelled from the spec: [getUserIfRefreshTokenMatches(userId, token)
    -> UserRecord | fails NotFound-equivalent] of the missing
    [UserService]: a record is returned only if the stored refresh token
    equals [token]. *)
Definition getUserIfRefreshTokenMatches (userId : JsVal)
    (token : option string) (users : list UserDocument)
    : Exn + UserDocument :=
  match findById userId users with
  | Some user =>
      match storedRefreshToken user, token with
      | Some stored, Some presented =>
          if String.eqb stored presented then inr user else inl NotFound
      | _, _ => inl NotFound
      end
  | None => inl NotFound
  end.

End UserService.

(** ** The outside world *)

(** The libraries the service calls: pure functions of their arguments
    and, where expiry is checked, of the time in milliseconds. *)
Record Libs : Type := mkLibs {
  jwt_sign : JsObject -> option string -> Exn + string;
  jwt_verify : string -> option string -> Z -> Exn + JsObject;
  jwt_decode : option string -> option JsObject;
  google_verifyIdToken : string -> option string -> Z -> Exn + option JsObject;
  uuid_at : nat -> string
}.

(** The state between two calls: the user collection, the wall clock in
    milliseconds, the number of uuids drawn so far and the configuration. *)
Record World : Type := mkWorld {
  users : list UserDocument;
  clock : Z;
  entropy : nat;
  config : gmap string string
}.

Definition with_users (us : list UserDocument) (w : World) : World :=
  mkWorld us (clock w) (entropy w) (config w).

Definition with_entropy (n : nat) (w : World) : World :=
  mkWorld (users w) (clock w) n (config w).

(** The handler of a single request served against the store of §4.3. *)
Definition std (L : Libs) : Handler World :=
  fun X ev w =>
    match ev in Event X return (Exn + X) * World with
    | DateNow => (inr (clock w), w)
    | Uuidv4 => (inr (uuid_at L (entropy w)), with_entropy (S (entropy w)) w)
    | ConfigGet key => (inr (config w !! key), w)
    | JwtSign payload secret => (jwt_sign L payload secret, w)
    | JwtVerify token secret => (jwt_verify L token secret (clock w), w)
    | JwtDecode token => (inr (jwt_decode L token), w)
    | GoogleVerifyIdToken idToken audience =>
        (google_verifyIdToken L idToken audience (clock w), w)
    | UsGetById userId => (UserService.getById userId (users w), w)
    | UsGetByEmail email' => (UserService.getByEmail email' (users w), w)
    | UsCreate name' email' =>
        let '(user, us) := UserService.create name' email' (users w) in
        (inr user, with_users us w)
    | UsSaveRefreshToken userId token =>
        (inr tt,
         with_users (UserService.saveRefreshToken userId token (users w)) w)
    | UsGetUserIfRefreshTokenMatches userId token =>
        (UserService.getUserIfRefreshTokenMatches userId token (users w), w)
    end.

(** A store that loses a document between two calls: while [n] is
    positive a write of the refresh token fails with [NotFound]. *)
Definition lossy (L : Libs) : Handler (World * nat) :=
  fun X ev '(w, n) =>
    match ev in Event X, n return (Exn + X) * (World * nat) with
    | UsSaveRefreshToken _ _, S n' => (inl UserService.NotFound, (w, n'))
    | ev, _ => let '(answer, w') := std L _ ev w in (answer, (w', n))
    end.

(** The stored refresh token of a user: [None] without a document,
    [Some None] when the field is cleared. *)
Definition token_of (userId : JsVal) (us : list UserDocument)
    : option (option string) :=
  storedRefreshToken <$> UserService.findById userId us.

Arguments token_of : simpl never.

(** ** Requests *)

(** Modelled from the spec: the controller that dispatches the requests
    is not part of the sources read here; §6 lists the inbound operations
    ([register] is reached through [login] only). *)
Inductive Request : Type :=
| SilentLogin (accessToken : string)
| Login (idToken : string) (provider : AuthProvider)
| Register (tokenPayload : JsObject)
| Logout (accessToken : string)
| RefreshExchange (accessToken refreshToken : option string).

(** The program of a request; the result is the token pair, if any. *)
Definition serve (q : Request) : Prog (option TokenPair) :=
  match q with
  | SilentLogin a => pair ← AuthService.silentLogin a; Ret (Some pair)
  | Login i p => pair ← AuthService.login i p; Ret (Some pair)
  | Register c => pair ← AuthService.register (Some c); Ret (Some pair)
  | Logout a => AuthService.logout a;; Ret None
  | RefreshExchange a r => AuthService.refreshToken a r
  end.

(** ** A small deployment, for concrete runs *)

Module Demo.

Definition show (v : JsVal) : string :=
  match v with
  | JStr s => s
  | JNum n => pretty n
  | _ => "-"
  end.

(** A signature that can be read back: the user, [iat] and [exp]. *)
Definition sign (payload : JsObject) (secret : option string)
    : Exn + string :=
  match secret with
  | Some _ =>
      inr ("jwt/" +:+ show (get payload "userId") +:+ "/"
           +:+ show (get payload "iat") +:+ "/"
           +:+ show (get payload "exp"))
  | None => inl (Error "secretOrPrivateKey must have a value")
  end.

Definition bob_claims : JsObject :=
  <["userId" := JStr "u1"]> (<["name" := JStr "Bob"]>
    (<["email" := JStr "bob@x.com"]> (<["iat" := JNum 1000]>
      (<["exp" := JNum 1300]> ∅)))).

Definition ghost_claims : JsObject :=
  <["userId" := JStr "gone"]> (<["name" := JStr "Zed"]>
    (<["email" := JStr "zed@x.com"]> ∅)).

Definition anonymous_claims : JsObject :=
  <["name" := JStr "Eve"]> ∅.

(** Four well-formed tokens; every other string is malformed. *)
Definition decode (token : option string) : option JsObject :=
  match token with
  | Some t =>
      if String.eqb t "bob.expired" then Some bob_claims
      else if String.eqb t "bob.valid" then Some bob_claims
      else if String.eqb t "ghost.valid" then Some ghost_claims
      else if String.eqb t "anonymous" then Some anonymous_claims
      else None
  | None => None
  end.

(** Two of them pass verification. *)
Definition verify (token : string) (secret : option string) (now : Z)
    : Exn + JsObject :=
  if String.eqb token "bob.valid" then inr bob_claims
  else if String.eqb token "ghost.valid" then inr ghost_claims
  else if String.eqb token "bob.expired" then inl (Error "jwt expired")
  else inl (Error "jwt malformed").

Definition ann : JsObject :=
  <["name" := JStr "Ann"]> (<["email" := JStr "ann@x.com"]> ∅).

Definition bob : JsObject :=
  <["name" := JStr "Bob"]> (<["email" := JStr "bob@x.com"]> ∅).

(** Google vouches for Ann and for Bob towards this client. *)
Definition google (idToken : string) (audience : option string) (now : Z)
    : Exn + option JsObject :=
  match audience with
  | Some "client-1" =>
      if String.eqb idToken "google.ann"
      then inr (Some (<["sub" := JStr "108"]> ann))
      else if String.eqb idToken "google.bob"
      then inr (Some (<["sub" := JStr "215"]> bob))
      else inl (Error "Invalid token signature")
  | _ => inl (Error "Wrong recipient")
  end.

Definition uuid (n : nat) : string := "uuid-" +:+ pretty n.

Definition libs : Libs := mkLibs sign verify decode google uuid.

(** Bob is registered and holds the refresh token [r1]. *)
Definition world : World :=
  mkWorld
    [mkUser "u1" (JStr "Bob") (JStr "bob@x.com") (Some "r1")]
    1700000000123
    0
    (<["JWT_SECRET" := "s3cret"]> (<["GOOGLE_CLIENT_ID" := "client-1"]> ∅)).

End Demo.

(** ** Further readings of a transcript *)

(** The exception of [verifyAccessToken]. *)
Definition AccessTokenInvalid : Exn :=
  HttpException "Authorization token expired" HttpStatus.UNAUTHORIZED.

(** The exception of [verifyIdToken]. *)
Definition IdTokenInvalid : Exn :=
  HttpException "idToken not valid" HttpStatus.UNAUTHORIZED.

(** The uuid answered by a call to [uuidv4], if the call is one. *)
Definition drawn (c : Call) : option string :=
  match c with
  | Called ev answer =>
      match ev in Event X return Exn + X -> option string with
      | Uuidv4 =>
          fun answer =>
            match answer with
            | inr uuid => Some uuid
            | inl _ => None
            end
      | _ => fun _ => None
      end answer
  end.

(** The payload answered by [jwtService.verify], if the call is one. *)
Definition verified (c : Call) : option JsObject :=
  match c with
  | Called ev answer =>
      match ev in Event X return Exn + X -> option JsObject with
      | JwtVerify _ _ =>
          fun answer =>
            match answer with
            | inr payload => Some payload
            | inl _ => None
            end
      | _ => fun _ => None
      end answer
  end.

(** The payload answered by [jwtService.decode], if the call is one and
    the token was well formed. *)
Definition decoded (c : Call) : option JsObject :=
  match c with
  | Called ev answer =>
      match ev in Event X return Exn + X -> option JsObject with
      | JwtDecode _ =>
          fun answer =>
            match answer with
            | inr payload => payload
            | inl _ => None
            end
      | _ => fun _ => None
      end answer
  end.

(** The payload of the ticket answered by Google, if the call is one. *)
Definition vouched (c : Call) : option JsObject :=
  match c with
  | Called ev answer =>
      match ev in Event X return Exn + X -> option JsObject with
      | GoogleVerifyIdToken _ _ =>
          fun answer =>
            match answer with
            | inr payload => payload
            | inl _ => None
            end
      | _ => fun _ => None
      end answer
  end.

(** The record answered by [userService.create], if the call is one. *)
Definition created (c : Call) : option UserDocument :=
  match c with
  | Called ev answer =>
      match ev in Event X return Exn + X -> option UserDocument with
      | UsCreate _ _ =>
          fun answer =>
            match answer with
            | inr user => Some user
            | inl _ => None
            end
      | _ => fun _ => None
      end answer
  end.

(** Every property of [claims] other than [iat] and [exp] is the one of
    [payload]. *)
Definition carries (payload claims : JsObject) : Prop :=
  forall k, k <> "iat" -> k <> "exp" -> get claims k = get payload k.

(** The time answered by a call to [Date.now()], if the call is one. *)
Definition reading (c : Call) : option Z :=
  match c with
  | Called ev answer =>
      match ev in Event X return Exn + X -> option Z with
      | DateNow =>
          fun answer =>
            match answer with
            | inr t => Some t
            | inl _ => None
            end
      | _ => fun _ => None
      end answer
  end.

(** Calls to [configService.get]. *)
Definition is_config_read (c : Call) : bool :=
  match c with
  | Called (ConfigGet _) _ => true
  | _ => false
  end.

(** The exception a call was answered with, if it threw. *)
Definition failure (c : Call) : option Exn :=
  match c with
  | Called _ (inl error) => Some error
  | Called _ (inr _) => None
  end.

(** The tokens signed in a transcript, each with the time of its
    issuance: what [Date.now()] answered just before the signing, with
    nothing but reads of the configuration in between.  A signed token
    without such a reading is listed with [None]. *)
Fixpoint issuances (now : option Z) (cs : list Call)
    : list (option Z * JsObject * string) :=
  match cs with
  | [] => []
  | c :: rest =>
      match issued c with
      | Some (claims, token) => (now, claims, token) :: issuances None rest
      | None =>
          match reading c with
          | Some t => issuances (Some t) rest
          | None => issuances (if is_config_read c then now else None) rest
          end
      end
  end.

(** A token was signed at a known time [t], with [iat] the whole seconds
    of [t] and [exp] 300 seconds later. *)
Definition stamped (i : option Z * JsObject * string) : Prop :=
  exists t, i.1.1 = Some t /\ timely t i.1.2.

(** The refresh tokens held in a user collection. *)
Definition tokens (us : list UserDocument) : list string :=
  omap storedRefreshToken us.

(** Every refresh token in the collection is held by one document and
    is one of the first [n] uuids drawn.  The empty collection has the
    property, and every request keeps it (with [n] the number of uuids
    drawn so far). *)
Definition drawn_once (L : Libs) (us : list UserDocument) (n : nat) : Prop :=
  NoDup (tokens us)
  /\ forall t, t ∈ tokens us -> exists i, (i < n)%nat /\ t = uuid_at L i.

(** ** Deployments that fail *)

Module Faults.


(** The deployment of [Demo] after Bob has exchanged [r1]: one uuid has
    been drawn and Bob holds it. *)
Definition later : World :=
  mkWorld
    [mkUser "u1" (JStr "Bob") (JStr "bob@x.com") (Some (Demo.uuid 0))]
    (clock Demo.world) 1 (config Demo.world).

(** The deployment of [Demo] started without [JWT_SECRET]: signing
    throws. *)
Definition no_secret : World :=
  mkWorld (users Demo.world) (clock Demo.world) 0
    (<["GOOGLE_CLIENT_ID" := "client-1"]> ∅).

(** A store whose match check answers a record without id. *)
Definition blank (L : Libs) : Handler World :=
  fun X ev w =>
    match ev in Event X return (Exn + X) * World with
    | UsGetUserIfRefreshTokenMatches _ _ =>
        (inr (mkUser "" JUndefined JUndefined None), w)
    | ev => std L _ ev w
    end.

End Faults.

(** * Properties *)

(** ** Running composed programs *)

(** Case analysis on the answer of the next call of a run under [h]. *)
Ltac ask h :=
  match goal with
  | |- context [h ?X ?ev ?st] =>
      let E := fresh "Hanswer" in
      destruct (h X ev st) as [[?error | ?answer] ?w] eqn:E
  end.

Section Running.

Context {W : Type} (h : Handler W).

Lemma run_try_bind {A B : Type} (p : Prog A) (k : A -> Prog B)
    (c : Exn -> Prog B) (w : W) :
  run h (try_bind p k c) w =
  match outcome (run h p w) with
  | inr a => continued (run h p w) (run h (k a) (world (run h p w)))
  | inl error => continued (run h p w) (run h (c error) (world (run h p w)))
  end.
Proof.
  revert w. induction p as [a | error | X ev k' IH]; intros w; cbn.
  - by destruct (run h (k a) w).
  - by destruct (run h (c error) w).
  - destruct (h X ev w) as [answer w1]. rewrite IH.
    by destruct (outcome (run h (k' answer) w1)).
Qed.

Lemma run_bind {A B : Type} (p : Prog A) (k : A -> Prog B) (w : W) :
  run h (p ≫= k) w =
  match outcome (run h p w) with
  | inr a => continued (run h p w) (run h (k a) (world (run h p w)))
  | inl error => failed (run h p w) error
  end.
Proof.
  unfold mbind, Prog_bind.
  revert w. induction p as [a | error | X ev k' IH]; intros w; cbn.
  - by destruct (run h (k a) w).
  - done.
  - destruct (h X ev w) as [answer w1]. rewrite IH.
    by destruct (outcome (run h (k' answer) w1)).
Qed.

Lemma run_try_catch {A : Type} (p : Prog A) (c : Exn -> Prog A) (w : W) :
  run h (try_catch p c) w =
  match outcome (run h p w) with
  | inr a => run h p w
  | inl error => continued (run h p w) (run h (c error) (world (run h p w)))
  end.
Proof.
  unfold try_catch. rewrite run_try_bind.
  destruct (run h p w) as [[error | a] w1 cs] eqn:E; cbn; [done |].
  unfold continued; cbn. by rewrite app_nil_r.
Qed.

End Running.

(** ** The merge policy of [login] *)

Section Login.

Context {W : Type} (h : Handler W).
Import AuthService.

(** [verifyIdToken] throws nothing but its own 401. *)
Lemma verifyIdToken_throws idToken provider w error :
  outcome (run h (verifyIdToken idToken provider) w) = inl error ->
  error = HttpException "idToken not valid" HttpStatus.UNAUTHORIZED.
Proof.
  unfold verifyIdToken. rewrite run_try_catch.
  match goal with |- context [run h ?p w] => generalize (run h p w) end.
  intros [[e | a] w1 cs]; cbn; congruence.
Qed.

Lemma run_login idToken provider w :
  let r1 := run h (verifyIdToken idToken provider) w in
  run h (login idToken provider) w =
  match outcome r1 with
  | inl error => failed r1 error
  | inr tokenPayload =>
      let r2 := run h (login_body tokenPayload) (world r1) in
      match outcome r2 with
      | inl error =>
          continued r1
            (continued r2
               (run h (login_catch tokenPayload error) (world r2)))
      | inr _ => continued r1 r2
      end
  end.
Proof.
  cbn zeta. unfold login. rewrite run_try_bind.
  destruct (outcome (run h (verifyIdToken _ _) w)) as [error | tp] eqn:E.
  - rewrite (verifyIdToken_throws _ _ _ _ E). cbn.
    unfold continued, failed; cbn. by rewrite app_nil_r.
  - rewrite run_try_catch. by destruct (outcome (run h (login_body tp) _)).
Qed.

(** A verification failure leaves [login] as it left [verifyIdToken]. *)
Lemma login_verification_failure idToken provider w error :
  outcome (run h (verifyIdToken idToken provider) w) = inl error ->
  run h (login idToken provider) w =
  failed (run h (verifyIdToken idToken provider) w) error.
Proof. intros E. pose proof (run_login idToken provider w) as R. cbn zeta in R. by rewrite R, E. Qed.

End Login.

Section LoginClaims.

Context {W : Type} (h : Handler W).
Import AuthService.


(** C10.  The [catch] of [login] guards every statement after the
    verification: when the rest of the body (lookup, token issuance,
    [saveRefreshToken]) throws a NotFound at any point, [login]
    continues with [register] on the claim, from the world in which the
    exception was thrown, and [register] begins by creating a user
    record; the exception does not reach the caller. *)
Theorem login_any_not_found_registers idToken provider w claim error :
  let r1 := run h (verifyIdToken idToken provider) w in
  let r2 := run h (login_body (Some claim)) (world r1) in
  let r3 := run h (register (Some claim)) (world r2) in
  outcome r1 = inr (Some claim) ->
  outcome r2 = inl error ->
  is_not_found error = true ->
  run h (login idToken provider) w = continued r1 (continued r2 r3)
  /\ exists answer rest,
       calls r3 =
       Called (UsCreate (get claim "name") (get claim "email")) answer
       :: rest.
Proof.
  intros r1 r2 r3 Hclaim Hbody Hnf.
  pose proof (run_login h idToken provider w) as R. cbn zeta in R.
  fold r1 in R. rewrite Hclaim in R. fold r2 in R. rewrite Hbody in R.
  unfold login_catch in R. rewrite Hnf in R. split; [done |].
  subst r3. cbn. ask h. all: eauto.
Qed.

(** C4, at the input where the code departs from it.  With a provider
    other than Google, [verifyIdToken] calls nobody and returns
    [undefined]: it does not fail, whatever the assertion. *)
Theorem verifyIdToken_unsupported_provider idToken tag w :
  run h (verifyIdToken idToken (UnsupportedProvider tag)) w
  = mkRun (inr None) w [].
Proof. reflexivity. Qed.

(** With Google every failure is the one 401: of the library, of the
    configuration read, or of the destructuring of an absent payload. *)
Lemma verifyIdToken_google idToken w :
  match outcome (run h (verifyIdToken idToken Google) w) with
  | inl error =>
      error = HttpException "idToken not valid" HttpStatus.UNAUTHORIZED
  | inr tokenPayload => is_Some tokenPayload
  end.
Proof.
  destruct (outcome _) as [error | tp] eqn:E.
  - eauto using verifyIdToken_throws.
  - revert E. cbn. ask h; cbn; [done |]. ask h; cbn; [done |].
    match goal with |- context [match ?t with Some _ => _ | None => _ end] =>
      destruct t end; cbn; [| done].
    intros [= <-]. eauto.
Qed.

End LoginClaims.

(** ** The guard of [refreshToken] *)

Section RefreshGuard.

Context {W : Type} (h : Handler W).
Import AuthService.

Lemma refreshToken_guard_fails a r w decoded w1 :
  h _ (JwtDecode a) w = (inr decoded, w1) ->
  truthy (of_arg a) && truthy (of_arg r)
    && truthy (get_opt decoded "userId") = false ->
  run h (refreshToken a r) w
  = mkRun (inl BadRequest) w1 [Called (JwtDecode a) (inr decoded)].
Proof. intros Hdecode Hguard. cbn. rewrite Hdecode. cbn. by rewrite Hguard. Qed.


(** C3, as the code has it.  When both values are present and non-empty
    and the decoded payload yields no userId (the token does not decode,
    or the property is absent or falsy), [refreshToken] takes the [else]
    branch of its guard and throws the 400 "Bad token request", without
    any call to the user store. *)
Theorem refreshToken_without_userId_is_bad_request a r w decoded w1 :
  h _ (JwtDecode a) w = (inr decoded, w1) ->
  truthy (of_arg a) = true ->
  truthy (of_arg r) = true ->
  truthy (get_opt decoded "userId") = false ->
  run h (refreshToken a r) w
  = mkRun (inl BadRequest) w1 [Called (JwtDecode a) (inr decoded)].
Proof.
  intros Hdecode Ha Hr Hno. apply refreshToken_guard_fails; [done |].
  by rewrite Ha, Hr, Hno.
Qed.

End RefreshGuard.

(** ** Issued access tokens *)

Lemma lookup_set k v (o : JsObject) k' :
  set k v o !! k' =
  if decide (k = k') then match v with JUndefined => None | _ => Some v end
  else o !! k'.
Proof.
  unfold set. case_decide as Hk.
  - subst k'. destruct v; by rewrite ?lookup_delete_eq, ?lookup_insert_eq.
  - destruct v; by rewrite ?lookup_delete_ne, ?lookup_insert_ne.
Qed.

Lemma get_set k v (o : JsObject) k' :
  get (set k v o) k' = if decide (k = k') then v else get o k'.
Proof. unfold get. rewrite lookup_set. case_decide; [by destruct v | done]. Qed.

Lemma get_set_eq k v (o : JsObject) : get (set k v o) k = v.
Proof. rewrite get_set. by case_decide. Qed.

Lemma get_set_ne k v (o : JsObject) k' :
  k <> k' -> get (set k v o) k' = get o k'.
Proof. intros Hne. rewrite get_set. by case_decide. Qed.

Lemma timely_getAccessToken_claims t payload :
  timely t (set "exp" (JNum (t / 1000 + 300))
              (set "iat" (JNum (t / 1000)) payload)).
Proof.
  split; [by rewrite get_set_ne, get_set_eq | by rewrite get_set_eq].
Qed.

Lemma getAccessToken_overwrites e i e' i' (o : JsObject) :
  set "exp" e (set "iat" i (set "iat" i' (set "exp" e' o)))
  = set "exp" e (set "iat" i o).
Proof.
  apply map_eq. intros k. rewrite !lookup_set. repeat case_decide; congruence.
Qed.

Lemma register_overwrites e i u e' i' u' (o : JsObject) :
  set "exp" e (set "iat" i (set "userId" u
    (set "userId" u' (set "iat" i' (set "exp" e' o)))))
  = set "exp" e (set "iat" i (set "userId" u o)).
Proof.
  apply map_eq. intros k. rewrite !lookup_set. repeat case_decide; congruence.
Qed.

(** Runs the program of the goal call by call, along every answer. *)
Ltac explore h :=
  cbn;
  repeat
    (first
       [ ask h
       | match goal with
         | |- context [match ?x with Some _ => _ | None => _ end] =>
             destruct x
         | |- context [is_not_found ?e] => destruct (is_not_found e) eqn:?
         | |- context [truthy ?v] => destruct (truthy v) eqn:?
         | |- context [if ?b then _ else _] => destruct b eqn:?
         end ];
     cbn; unfold AuthService.login_catch; cbn).

Lemma stamped_getAccessToken_claims t payload token :
  stamped (Some t,
           set "exp" (JNum (t / 1000 + 300))
             (set "iat" (JNum (t / 1000)) payload),
           token).
Proof. exists t. split; [done | apply timely_getAccessToken_claims]. Qed.

Section Issued.

Context {W : Type} (h : Handler W).

(** C7.  Whatever the collaborators answer, every access token signed
    while a request is served ([silentLogin], [login], [register] reached
    from it or called directly, [refreshToken]) was signed just after a
    reading [t] of [Date.now()], with only the read of the secret in
    between, and carries [iat = floor(t / 1000)] and [exp = iat + 300];
    and the access token of a returned pair is one of these signed
    tokens. *)
Theorem issued_tokens_live_300_seconds q w :
  let r := run h (serve q) w in
  Forall stamped (issuances None (calls r))
  /\ forall pair,
       outcome r = inr (Some pair) ->
       exists t claims,
         (Some t, claims, accessToken pair) ∈ issuances None (calls r)
         /\ timely t claims.
Proof.
  destruct q as [a | i [| tag] | c | a | a r]; explore h.
  all: split;
    [ repeat (apply List.Forall_cons;
              [apply stamped_getAccessToken_claims |]);
      apply List.Forall_nil
    | intros ? ?;
      first
        [ by simplify_eq
        | simplify_eq; eexists _, _;
          split; [| apply timely_getAccessToken_claims];
          apply list_elem_of_In; cbn; eauto 10 ] ].
Qed.

(** C9.  Whatever [iat], [exp] and [userId] a caller-supplied payload
    holds, and whatever the collaborators answer:
    - when [getAccessToken] returns, what it returns is the one token it
      signed, just after a reading [t] of the clock, over claims with
      [iat = floor(t / 1000)] and [exp = iat + 300] and, for the rest,
      the properties of the payload;
    - when [register] returns, its access token is the one token it
      signed, over claims whose [userId] is the id of the record that
      [create] has just answered, with [iat] and [exp] as above and, for
      the rest, the properties of the claim, and its refresh token is
      written for that id;
    - either function fails only with the exception that its last call
      to a collaborator threw;
    - the whole run of either function (result, world, transcript) is the
      same as on the payload without the stale values. *)
Theorem stale_claims_are_overwritten w :
  (forall payload,
     let r := run h (AuthService.getAccessToken payload) w in
     (forall token,
        outcome r = inr token ->
        exists t claims,
          issuances None (calls r) = [(Some t, claims, token)]
          /\ timely t claims
          /\ carries payload claims)
     /\ (forall error,
           outcome r = inl error ->
           exists c, last (calls r) = Some c /\ failure c = Some error))
  /\ (forall claim,
        let r := run h (AuthService.register (Some claim)) w in
        (forall pair,
           outcome r = inr pair ->
           exists user t claims,
             omap created (calls r) = [user]
             /\ issuances None (calls r)
                = [(Some t, claims, accessToken pair)]
             /\ get claims "userId" = JStr (_id user)
             /\ timely t claims
             /\ (forall k,
                   k <> "userId" -> k <> "iat" -> k <> "exp" ->
                   get claims k = get claim k)
             /\ omap token_write (calls r)
                = [(JStr (_id user), Some (refreshToken pair))])
        /\ (forall error,
              outcome r = inl error ->
              exists c, last (calls r) = Some c /\ failure c = Some error))
  /\ (forall payload iat exp,
        run h (AuthService.getAccessToken
                 (set "iat" iat (set "exp" exp payload))) w
        = run h (AuthService.getAccessToken payload) w)
  /\ (forall claim userId iat exp,
        run h (AuthService.register
                 (Some (set "userId" userId
                          (set "iat" iat (set "exp" exp claim))))) w
        = run h (AuthService.register (Some claim)) w).
Proof.
  split; [| split; [| split]].
  - intros payload. explore h.
    all: split; intros ? ?; simplify_eq; eauto.
    eexists _, _. split; [reflexivity |].
    split; [apply timely_getAccessToken_claims |].
    intros k Hiat Hexp. by rewrite !get_set_ne.
  - intros claim. explore h.
    all: split; intros ? ?; simplify_eq; eauto.
    eexists _, _, _. split; [reflexivity |]. split; [reflexivity |].
    split; [do 2 (rewrite get_set_ne by done); apply get_set_eq |].
    split; [apply timely_getAccessToken_claims |].
    split; [| reflexivity].
    intros k Huser Hiat Hexp. by rewrite !get_set_ne.
  - intros payload iat exp. cbn.
    repeat (rewrite ?getAccessToken_overwrites; ask h; cbn). all: done.
  - intros claim userId iat exp. cbn. rewrite !get_set_ne by done.
    repeat (rewrite ?register_overwrites; ask h; cbn). all: done.
Qed.

End Issued.

(** ** The store *)

Lemma findById_id userId us user :
  UserService.findById userId us = Some user -> userId = JStr (_id user).
Proof.
  destruct userId; cbn; try done.
  intros [_ Heq%String.eqb_eq]%find_some. by subst.
Qed.

Lemma token_of_saveRefreshToken userId token us :
  token_of userId (UserService.saveRefreshToken userId token us)
  = match token_of userId us with Some _ => Some token | None => None end.
Proof.
  unfold token_of. destruct userId as [| | | | s |]; try done.
  induction us as [| u us IH]; cbn; [done |].
  destruct (String.eqb_spec (_id u) s) as [-> | Hne].
  - rewrite bool_decide_eq_true_2 by done. cbn. by rewrite String.eqb_refl.
  - rewrite bool_decide_eq_false_2 by congruence. cbn.
    apply String.eqb_neq in Hne. by rewrite Hne.
Qed.

Lemma getUserIfRefreshTokenMatches_inr userId presented us user :
  UserService.getUserIfRefreshTokenMatches userId (Some presented) us
  = inr user ->
  UserService.findById userId us = Some user
  /\ storedRefreshToken user = Some presented.
Proof.
  unfold UserService.getUserIfRefreshTokenMatches.
  destruct (UserService.findById userId us) as [u |]; [| done].
  destruct (storedRefreshToken u) as [stored |] eqn:Hs; [| done].
  destruct (String.eqb_spec stored presented) as [-> | ?]; [| done].
  by intros [= <-].
Qed.

Lemma getUserIfRefreshTokenMatches_stored userId presented us user :
  UserService.findById userId us = Some user ->
  storedRefreshToken user = Some presented ->
  UserService.getUserIfRefreshTokenMatches userId (Some presented) us
  = inr user.
Proof.
  unfold UserService.getUserIfRefreshTokenMatches. intros -> ->.
  by rewrite String.eqb_refl.
Qed.

(** Runs the program of the goal against [std], along every answer of a
    library and of the store. *)
Ltac explore_std :=
  cbn;
  repeat (first [progress unfold AuthService.login_catch in * | case_match];
          simplify_eq; cbn in *).

Section Std.

Context (L : Libs).


(** C8.  Let the access token pass verification and let its [userId]
    name no document of the store.  Then [silentLogin] ends with the
    store's own NotFound exception (status 404, not translated), the
    user collection is the one the request started with, and the run
    contains no write of a refresh token. *)
Theorem silentLogin_deleted_user_propagates a w payload :
  jwt_verify L a (config w !! "JWT_SECRET") (clock w) = inr payload ->
  UserService.findById (get payload "userId") (users w) = None ->
  let r := run (std L) (AuthService.silentLogin a) w in
  outcome r = inl UserService.NotFound
  /\ is_not_found UserService.NotFound = true
  /\ users (world r) = users w
  /\ omap token_write (calls r) = [].
Proof.
  intros Hverify Hfind. cbn. rewrite Hverify. cbn.
  unfold UserService.getById. rewrite Hfind. cbn. done.
Qed.

(** C2.  [refreshToken] never asks the JWT library to verify the access
    token.  Let both values be non-empty, let the access token decode
    (without verification) to a payload with a non-empty [userId], let
    the presented refresh token be the one stored for that user, and let
    signing succeed.  Then, whatever verification of the access token
    would say, the result is a new pair: the token just signed and the
    uuid just drawn, which is now the value stored for the user; and no
    call of the run is a call to [verify]. *)
Theorem refreshToken_trusts_the_stored_token a presented w payload uid user
    token :
  a <> "" ->
  presented <> "" ->
  jwt_decode L (Some a) = Some payload ->
  get payload "userId" = JStr uid ->
  uid <> "" ->
  UserService.findById (JStr uid) (users w) = Some user ->
  storedRefreshToken user = Some presented ->
  jwt_sign L
    (set "exp" (JNum (clock w / 1000 + 300))
       (set "iat" (JNum (clock w / 1000)) payload))
    (config w !! "JWT_SECRET") = inr token ->
  let r := run (std L) (AuthService.refreshToken (Some a) (Some presented)) w in
  outcome r = inr (Some (mkPair token (uuid_at L (entropy w))))
  /\ token_of (JStr uid) (users (world r))
     = Some (Some (uuid_at L (entropy w)))
  /\ Forall (fun c => is_verify_call c = false) (calls r).
Proof.
  intros Ha Hp Hdecode Huid Hne Hfind Hstored Hsign.
  pose proof (findById_id _ _ _ Hfind) as [= Hid].
  apply String.eqb_neq in Ha, Hp, Hne.
  cbn. rewrite Hdecode. cbn. rewrite Huid. cbn. rewrite Ha, Hp, Hne. cbn.
  rewrite (getUserIfRefreshTokenMatches_stored _ _ _ _ Hfind Hstored). cbn.
  rewrite <- Hid, Hne. cbn. rewrite Hsign. cbn.
  split; [done |]. split; [| by repeat constructor].
  rewrite token_of_saveRefreshToken. unfold token_of. by rewrite Hfind.
Qed.

Lemma saveRefreshToken_last id token n e us :
  id ∉ _id <$> us ->
  UserService.saveRefreshToken (JStr id) token (us ++ [mkUser id n e None])
  = (us ++ [mkUser id n e token])%list.
Proof.
  induction us as [| u us IH]; cbn; intros Hfresh.
  - by rewrite bool_decide_eq_true_2.
  - apply not_elem_of_cons in Hfresh as [Hne Hfresh].
    rewrite bool_decide_eq_false_2 by congruence. by rewrite IH.
Qed.

(** [register] on the store of §4.3: the record is new, and the pair is
    the token signed for its id with the uuid just drawn, which the new
    record stores.  Through C1 this is also what a first [login]
    returns. *)
Lemma register_creates_user claim w token :
  let id := fresh (_id <$> users w) in
  let uuid := uuid_at L (entropy w) in
  jwt_sign L
    (set "exp" (JNum (clock w / 1000 + 300))
       (set "iat" (JNum (clock w / 1000)) (set "userId" (JStr id) claim)))
    (config w !! "JWT_SECRET") = inr token ->
  let r := run (std L) (AuthService.register (Some claim)) w in
  outcome r = inr (mkPair token uuid)
  /\ users (world r)
     = (users w
        ++ [mkUser id (get claim "name") (get claim "email") (Some uuid)])%list
  /\ id ∉ _id <$> users w.
Proof.
  intros id uuid Hsign. cbn. fold id. rewrite Hsign. cbn.
  pose proof (infinite_is_fresh (_id <$> users w)) as Hfresh.
  split; [done |]. split; [| done]. by apply saveRefreshToken_last.
Qed.



End Std.

(** ** Refresh tokens in the collection *)

Lemma tokens_cons u us :
  tokens (u :: us) = (option_list (storedRefreshToken u) ++ tokens us)%list.
Proof. unfold tokens. cbn. by destruct (storedRefreshToken u). Qed.

Lemma tokens_created id n e us :
  tokens (us ++ [mkUser id n e None]) = tokens us.
Proof. unfold tokens. rewrite omap_app. cbn. by rewrite app_nil_r. Qed.



Lemma findById_cons userId u us :
  UserService.findById userId (u :: us)
  = if bool_decide (JStr (_id u) = userId) then Some u
    else UserService.findById userId us.
Proof.
  destruct userId as [| | | | s |];
    try by rewrite bool_decide_eq_false_2.
  cbn. destruct (String.eqb_spec (_id u) s) as [-> | Hne].
  - by rewrite bool_decide_eq_true_2.
  - rewrite bool_decide_eq_false_2; [done | congruence].
Qed.

(** A write replaces the token of one document, in place, or changes
    nothing. *)
Lemma tokens_saveRefreshToken userId token us :
  (token_of userId us = None
   /\ UserService.saveRefreshToken userId token us = us)
  \/ exists l1 l2 old,
       token_of userId us = Some old
       /\ tokens us = (l1 ++ option_list old ++ l2)%list
       /\ tokens (UserService.saveRefreshToken userId token us)
          = (l1 ++ option_list token ++ l2)%list.
Proof.
  unfold token_of. induction us as [| u us IH].
  { left. by destruct userId. }
  rewrite findById_cons. cbn [UserService.saveRefreshToken].
  case_bool_decide as Hid.
  - right. exists [], (tokens us), (storedRefreshToken u).
    split; [done |]. by rewrite !tokens_cons.
  - destruct IH as [[Hnone Hsame] | (l1 & l2 & old & Hold & Hbefore & Hafter)].
    + left. split; [done | by rewrite Hsame].
    + right. exists (option_list (storedRefreshToken u) ++ l1)%list, l2, old.
      split; [done |].
      rewrite !tokens_cons, Hbefore, Hafter, <- !app_assoc. done.
Qed.

Section Rotation.

Context (L : Libs).
Hypothesis uuids_differ : Inj (=) (=) (uuid_at L).

Lemma drawn_once_mono us n m :
  (n <= m)%nat -> drawn_once L us n -> drawn_once L us m.
Proof.
  intros Hle [Hnodup Hdrawn]. split; [done |].
  intros t Ht. destruct (Hdrawn t Ht) as (i & Hi & ->). exists i. split; [lia | done].
Qed.

Lemma drawn_once_create id nm em us n :
  drawn_once L us n -> drawn_once L (us ++ [mkUser id nm em None]) n.
Proof. unfold drawn_once. by rewrite tokens_created. Qed.

Lemma drawn_once_clear userId us n :
  drawn_once L us n ->
  drawn_once L (UserService.saveRefreshToken userId None us) n.
Proof.
  intros [Hnodup Hdrawn].
  destruct (tokens_saveRefreshToken userId None us)
    as [[_ ->] | (l1 & l2 & old & _ & Hbefore & Hafter)]; [done |].
  unfold drawn_once. rewrite Hafter. rewrite Hbefore in Hnodup, Hdrawn.
  cbn. split.
  - apply NoDup_app in Hnodup as (H1 & H12 & H2).
    apply NoDup_app in H2 as (_ & _ & H2).
    apply NoDup_app. split; [done |]. split; [| done].
    intros t Ht Ht2. apply (H12 t Ht). apply elem_of_app. by right.
  - intros t Ht. apply Hdrawn. apply elem_of_app in Ht as [Ht | Ht];
      apply elem_of_app; [by left | right]. apply elem_of_app. by right.
Qed.

Lemma drawn_once_save userId us n m :
  drawn_once L us n ->
  (n <= m)%nat ->
  drawn_once L
    (UserService.saveRefreshToken userId (Some (uuid_at L m)) us) (S m).
Proof.
  intros Hus Hle.
  destruct (tokens_saveRefreshToken userId (Some (uuid_at L m)) us)
    as [[_ ->] | (l1 & l2 & old & _ & Hbefore & Hafter)].
  { apply (drawn_once_mono us n); [lia | done]. }
  destruct Hus as [Hnodup Hdrawn].
  unfold drawn_once. rewrite Hafter. rewrite Hbefore in Hnodup, Hdrawn.
  assert (forall t, t ∈ (l1 ++ l2)%list -> exists i, (i < n)%nat /\ t = uuid_at L i)
    as Hrest.
  { intros t Ht. apply Hdrawn. apply elem_of_app in Ht as [Ht | Ht];
      apply elem_of_app; [by left | right]. apply elem_of_app. by right. }
  assert (uuid_at L m ∉ (l1 ++ l2)%list) as Hnew.
  { intros Hin. destruct (Hrest _ Hin) as (i & Hi & Heq).
    apply uuids_differ in Heq. lia. }
  cbn. split.
  - apply NoDup_app in Hnodup as (H1 & H12 & H2).
    apply NoDup_app in H2 as (_ & _ & H2).
    apply NoDup_app. split; [done |]. split.
    + intros t Ht Ht2. apply elem_of_cons in Ht2 as [-> | Ht2].
      * apply Hnew. apply elem_of_app. by left.
      * apply (H12 t Ht). apply elem_of_app. by right.
    + apply NoDup_cons. split; [| done].
      intros Hin. apply Hnew. apply elem_of_app. by right.
  - intros t Ht. apply elem_of_app in Ht as [Ht | Ht].
    + destruct (Hrest t) as (i & Hi & ->); [apply elem_of_app; by left |].
      exists i. split; [lia | done].
    + apply elem_of_cons in Ht as [-> | Ht]; [exists m; split; [lia | done] |].
      destruct (Hrest t) as (i & Hi & ->); [apply elem_of_app; by right |].
      exists i. split; [lia | done].
Qed.



Lemma drawn_once_empty n : drawn_once L [] n.
Proof.
  split; [apply NoDup_nil_2 |]. intros t Ht. by apply elem_of_nil in Ht.
Qed.

(** Every request keeps the collection as requests leave it, whether it
    succeeds or fails. *)
Lemma every_request_keeps_drawn_once q w :
  drawn_once L (users w) (entropy w) ->
  let r := run (std L) (serve q) w in
  drawn_once L (users (world r)) (entropy (world r)).
Proof.
  destruct q as [a | i [| tag] | c | a | a p]; explore_std; intros Hw.
  all: first
    [ eassumption
    | eapply drawn_once_save;
      [ first [eassumption | apply drawn_once_create; eassumption] | lia ]
    | apply drawn_once_clear; eassumption
    | apply drawn_once_create; eassumption
    | eapply drawn_once_mono; [| first [eassumption
                                       | apply drawn_once_create;
                                         eassumption]]; lia ].
Qed.



End Rotation.

(** * Concrete runs *)


(** Bob's expired access token and his stored refresh token [r1] are
    exchanged for a new pair. *)
Lemma refreshToken_trusts_the_stored_token_witness :
  let r := run (std Demo.libs)
             (AuthService.refreshToken (Some "bob.expired") (Some "r1"))
             Demo.world in
  outcome r = inr (Some (mkPair "jwt/u1/1700000000/1700000300" "uuid-0"))
  /\ token_of (JStr "u1") (users (world r)) = Some (Some "uuid-0")
  /\ Forall (fun c => is_verify_call c = false) (calls r).
Proof.
  refine (refreshToken_trusts_the_stored_token Demo.libs "bob.expired" "r1"
            Demo.world Demo.bob_claims "u1"
            (mkUser "u1" (JStr "Bob") (JStr "bob@x.com") (Some "r1"))
            "jwt/u1/1700000000/1700000300" _ _ _ _ _ _ _ _);
    try discriminate; vm_compute; reflexivity.
Defined.

(** A well-formed token without [userId], presented with a non-empty
    refresh token, is answered by the 400, not by silence. *)
Lemma refreshToken_without_userId_is_not_silent :
  truthy (of_arg (Some "anonymous")) = true
  /\ truthy (of_arg (Some "r1")) = true
  /\ get_opt (jwt_decode Demo.libs (Some "anonymous")) "userId" = JUndefined
  /\ outcome (run (std Demo.libs)
                (AuthService.refreshToken (Some "anonymous") (Some "r1"))
                Demo.world)
     = inl BadRequest
  /\ outcome (run (std Demo.libs)
                (AuthService.refreshToken (Some "anonymous") (Some "r1"))
                Demo.world)
     <> inr None.
Proof. repeat split; try (vm_compute; reflexivity). vm_compute. discriminate. Qed.

Lemma refreshToken_without_userId_is_bad_request_witness :
  run (std Demo.libs)
    (AuthService.refreshToken (Some "anonymous") (Some "r1")) Demo.world
  = mkRun (inl BadRequest) Demo.world
      [Called (JwtDecode (Some "anonymous"))
         (inr (Some Demo.anonymous_claims))].
Proof.
  refine (refreshToken_without_userId_is_bad_request (std Demo.libs)
            (Some "anonymous") (Some "r1") Demo.world
            (Some Demo.anonymous_claims) Demo.world _ _ _ _);
    vm_compute; reflexivity.
Defined.

(** A valid access token of a user who is gone. *)
Lemma silentLogin_deleted_user_propagates_witness :
  let r := run (std Demo.libs) (AuthService.silentLogin "ghost.valid")
             Demo.world in
  outcome r = inl UserService.NotFound
  /\ is_not_found UserService.NotFound = true
  /\ users (world r) = users Demo.world
  /\ omap token_write (calls r) = [].
Proof.
  refine (silentLogin_deleted_user_propagates Demo.libs "ghost.valid"
            Demo.world Demo.ghost_claims _ _);
    vm_compute; reflexivity.
Defined.

(** Bob logs in, and his record is lost before the refresh token is
    saved: [login] registers him a second time. *)
Lemma login_any_not_found_registers_witness :
  let h := lossy Demo.libs in
  let w := (Demo.world, 1%nat) in
  let r1 := run h (AuthService.verifyIdToken "google.bob" Google) w in
  let r2 := run h (AuthService.login_body (Some Demo.bob)) (world r1) in
  let r3 := run h (AuthService.register (Some Demo.bob)) (world r2) in
  run h (AuthService.login "google.bob" Google) w
  = continued r1 (continued r2 r3)
  /\ exists answer rest,
       calls r3 =
       Called (UsCreate (get Demo.bob "name") (get Demo.bob "email")) answer
       :: rest.
Proof.
  refine (login_any_not_found_registers (lossy Demo.libs) "google.bob" Google
            (Demo.world, 1%nat) Demo.bob UserService.NotFound _ _ _);
    vm_compute; reflexivity.
Defined.



(** Ann's first login. *)
Lemma issued_tokens_live_300_seconds_witness :
  let r := run (std Demo.libs) (serve (Login "google.ann" Google))
             Demo.world in
  exists t claims,
    (Some t, claims, "jwt/0/1700000000/1700000300")
    ∈ issuances None (calls r)
    /\ timely t claims.
Proof.
  refine (proj2 (issued_tokens_live_300_seconds (std Demo.libs)
                   (Login "google.ann" Google) Demo.world)
            (mkPair "jwt/0/1700000000/1700000300" "uuid-0") _).
  vm_compute; reflexivity.
Defined.

(** Bob's claims, which carry an old [iat], [exp] and [userId]: the token
    signed for them carries the time of the clock, and a registration
    with them is signed for the new id [0]. *)
Lemma stale_claims_are_overwritten_witness :
  (let r := run (std Demo.libs) (AuthService.getAccessToken Demo.bob_claims)
              Demo.world in
   exists t claims,
     issuances None (calls r)
     = [(Some t, claims, "jwt/u1/1700000000/1700000300")]
     /\ timely t claims
     /\ carries Demo.bob_claims claims)
  /\ (let r := run (std Demo.libs)
                 (AuthService.register (Some Demo.bob_claims)) Demo.world in
      let pair := mkPair "jwt/0/1700000000/1700000300" "uuid-0" in
      exists user t claims,
        omap created (calls r) = [user]
        /\ issuances None (calls r) = [(Some t, claims, accessToken pair)]
        /\ get claims "userId" = JStr (_id user)
        /\ timely t claims
        /\ (forall k,
              k <> "userId" -> k <> "iat" -> k <> "exp" ->
              get claims k = get Demo.bob_claims k)
        /\ omap token_write (calls r)
           = [(JStr (_id user), Some (refreshToken pair))]).
Proof.
  pose proof (stale_claims_are_overwritten (std Demo.libs) Demo.world)
    as (Hissue & Hregister & _ & _).
  split.
  - refine (proj1 (Hissue Demo.bob_claims) "jwt/u1/1700000000/1700000300" _).
    vm_compute; reflexivity.
  - refine (proj1 (Hregister Demo.bob_claims)
              (mkPair "jwt/0/1700000000/1700000300" "uuid-0") _).
    vm_compute; reflexivity.
Defined.


(** Bob's [uuid-0] was stored before the exchange; after it the
    collection holds [uuid-1] only and [uuid-0] is refused. *)
Example superseded_uuid_is_refused :
  let r := run (std Demo.libs)
             (AuthService.refreshToken (Some "bob.expired") (Some "uuid-0"))
             Faults.later in
  token_of (JStr "u1") (users Faults.later) = Some (Some "uuid-0")
  /\ tokens (users (world r)) = ["uuid-1"]
  /\ outcome (run (std Demo.libs)
                (AuthService.refreshToken (Some "bob.valid") (Some "uuid-0"))
                (world r))
     = inl UserService.NotFound.
Proof. repeat split; vm_compute; reflexivity. Qed.


(** With an unsupported provider [login] reads the email of [undefined]:
    the caller sees a [TypeError], which carries no status. *)
Lemma login_unsupported_provider {W : Type} (h : Handler W) idToken tag w :
  run h (AuthService.login idToken (UnsupportedProvider tag)) w
  = mkRun (inl (TypeError "Cannot read properties of undefined")) w [].
Proof. reflexivity. Qed.

(** After Bob has exchanged [r1] for a new pair, [r1] is answered by the
    store's NotFound. *)
Example exchange_of_superseded_token :
  let r := run (std Demo.libs)
             (AuthService.refreshToken (Some "bob.expired") (Some "r1"))
             Demo.world in
  outcome (run (std Demo.libs)
             (AuthService.refreshToken (Some "bob.expired") (Some "r1"))
             (world r))
  = inl UserService.NotFound.
Proof. vm_compute. reflexivity. Qed.

(** After a [logout] with a valid access token no value is stored for
    Bob, and [r1] is refused. *)
Example exchange_after_logout :
  let r := run (std Demo.libs) (AuthService.logout "bob.valid") Demo.world in
  token_of (JStr "u1") (users (world r)) = Some None
  /\ outcome (run (std Demo.libs)
                (AuthService.refreshToken (Some "bob.valid") (Some "r1"))
                (world r))
     = inl UserService.NotFound.
Proof. split; vm_compute; reflexivity. Qed.

(** The second registration of Bob by the lossy store leaves two records
    with his email. *)
Example lossy_login_duplicates_bob :
  users (world (run (lossy Demo.libs)
                  (AuthService.login "google.bob" Google)
                  (Demo.world, 1%nat))).1
  = [mkUser "u1" (JStr "Bob") (JStr "bob@x.com") (Some "r1");
     mkUser "0" (JStr "Bob") (JStr "bob@x.com") (Some "uuid-1")].
Proof. vm_compute. reflexivity. Qed.

(** * Further properties of the service *)

(** ** Access-token verification *)

Section Verification.

Context {W : Type} (h : Handler W).

(** [verifyAccessToken] has two ways to end: with the payload that
    [jwtService.verify] answered, or with the 401 "Authorization token
    expired", which replaces every exception, whatever its cause
    (expired, malformed, bad signature, unreadable configuration). *)
Theorem verifyAccessToken_payload_or_401 a w :
  let r := run h (AuthService.verifyAccessToken a) w in
  (exists payload, outcome r = inr payload
                   /\ omap verified (calls r) = [payload])
  \/ (outcome r = inl AccessTokenInvalid /\ omap verified (calls r) = []).
Proof. explore h; eauto. Qed.

(** An access token that fails verification stops [silentLogin] and
    [logout] where [verifyAccessToken] stopped: the caller gets the 401,
    no uuid is drawn and no call reaches the user store. *)
Theorem rejected_access_token_reaches_no_store a w error :
  let v := run h (AuthService.verifyAccessToken a) w in
  outcome v = inl error ->
  run h (AuthService.silentLogin a) w = failed v AccessTokenInvalid
  /\ run h (AuthService.logout a) w = failed v AccessTokenInvalid
  /\ omap drawn (calls v) = []
  /\ Forall (fun c => is_store_call c = false) (calls v).
Proof.
  intros v Hv.
  assert (error = AccessTokenInvalid) as ->.
  { revert Hv. subst v. explore h; intros ?; by simplify_eq. }
  unfold AuthService.silentLogin, AuthService.logout.
  rewrite !run_bind. fold v. rewrite Hv. split; [done |]. split; [done |].
  clear Hv. subst v. explore h; split; by repeat constructor.
Qed.

(** A [logout] that succeeds clears the refresh token of the user named
    in the verified payload, and does nothing else to tokens: it draws
    no uuid and signs nothing. *)
Theorem logout_clears_the_verified_user a w :
  let r := run h (AuthService.logout a) w in
  outcome r = inr tt ->
  exists payload,
    omap verified (calls r) = [payload]
    /\ omap token_write (calls r) = [(get payload "userId", None)]
    /\ omap issued (calls r) = []
    /\ omap drawn (calls r) = [].
Proof. explore h; intros ?; simplify_eq; eauto. Qed.

(** [logout] never stores a value: whatever happens, every write of a
    refresh token it makes is a clearing one, and it signs no token. *)
Theorem logout_stores_no_token a w :
  let r := run h (AuthService.logout a) w in
  Forall (fun '(_, token) => token = None) (omap token_write (calls r))
  /\ omap issued (calls r) = [].
Proof. explore h; split; by repeat constructor. Qed.

End Verification.

(** ** What a returned pair is made of *)

Lemma get_empty k : get ∅ k = JUndefined.
Proof. unfold get. by rewrite lookup_empty. Qed.

Lemma carries_getAccessToken_claims payload e i :
  carries payload (set "exp" e (set "iat" i payload)).
Proof. intros k Hiat Hexp. by rewrite !get_set_ne. Qed.

Section Pairs.

Context {W : Type} (h : Handler W).

(** The refresh token handed to the caller is the last uuid drawn and
    the last value written to the store, for every request and however
    the collaborators answer (also when [login] has fallen back on
    [register] after a failed write). *)
Theorem returned_refresh_token_is_the_stored_one q w pair :
  let r := run h (serve q) w in
  outcome r = inr (Some pair) ->
  last (omap drawn (calls r)) = Some (refreshToken pair)
  /\ exists userId,
       last (omap token_write (calls r))
       = Some (userId, Some (refreshToken pair)).
Proof.
  destruct q as [a | i [| tag] | c | a | a p]; explore h.
  all: intros ?; simplify_eq; eauto.
Qed.

(** Of the payload Google vouches for, [verifyIdToken] keeps [name] and
    [email] and nothing else; it returns a claim for Google only. *)
Theorem verifyIdToken_keeps_name_and_email idToken provider w claim :
  let r := run h (AuthService.verifyIdToken idToken provider) w in
  outcome r = inr (Some claim) ->
  provider = Google
  /\ exists payload,
       omap vouched (calls r) = [payload]
       /\ get claim "name" = get payload "name"
       /\ get claim "email" = get payload "email"
       /\ forall k, k <> "name" -> k <> "email" -> get claim k = JUndefined.
Proof.
  destruct provider as [| tag]; explore h; intros ?; simplify_eq.
  split; [done |]. eexists. split; [reflexivity |].
  split; [by rewrite get_set_ne, get_set_eq |].
  split; [by rewrite get_set_eq |].
  intros k Hname Hemail. by rewrite !get_set_ne, get_empty.
Qed.

(** [silentLogin] signs the claims of the verified access token again:
    apart from [iat] and [exp], every property of the new token is the
    one of the old (nothing is looked up again), and the refresh token is
    written for the [userId] of the old token. *)
Theorem silentLogin_reissues_the_verified_claims a w pair :
  let r := run h (AuthService.silentLogin a) w in
  outcome r = inr pair ->
  exists payload claims,
    omap verified (calls r) = [payload]
    /\ omap issued (calls r) = [(claims, accessToken pair)]
    /\ carries payload claims
    /\ omap token_write (calls r)
       = [(get payload "userId", Some (refreshToken pair))].
Proof.
  explore h; intros ?; simplify_eq.
  eexists _, _. split; [reflexivity |]. split; [reflexivity |].
  split; [apply carries_getAccessToken_claims | reflexivity].
Qed.

(** [refreshToken] signs the claims it decoded from the presented access
    token, which no call has verified: apart from [iat] and [exp], every
    property of the new, signed token is the one of the presented
    token. *)
Theorem refreshToken_signs_the_decoded_claims a p w pair :
  let r := run h (AuthService.refreshToken a p) w in
  outcome r = inr (Some pair) ->
  exists payload claims,
    omap decoded (calls r) = [payload]
    /\ omap issued (calls r) = [(claims, accessToken pair)]
    /\ carries payload claims
    /\ omap verified (calls r) = []
    /\ Forall (fun c => is_verify_call c = false) (calls r).
Proof.
  explore h; intros ?; simplify_eq.
  all: eexists _, _; split; [reflexivity |]; split; [reflexivity |].
  all: split; [apply carries_getAccessToken_claims |].
  all: split; [done | by repeat constructor].
Qed.

(** When the store refuses the presented refresh token, its exception is
    the result of [refreshToken]; no uuid is drawn, nothing is signed and
    nothing is written. *)
Theorem refreshToken_refusal_propagates a p w payload w1 error w2 :
  h _ (JwtDecode a) w = (inr payload, w1) ->
  truthy (of_arg a) && truthy (of_arg p)
    && truthy (get_opt payload "userId") = true ->
  h _ (UsGetUserIfRefreshTokenMatches (get_opt payload "userId") p) w1
  = (inl error, w2) ->
  run h (AuthService.refreshToken a p) w
  = mkRun (inl error) w2
      [Called (JwtDecode a) (inr payload);
       Called (UsGetUserIfRefreshTokenMatches (get_opt payload "userId") p)
         (inl error)].
Proof.
  intros Hdecode Hguard Hmatch. cbn. rewrite Hdecode. cbn.
  rewrite Hguard. cbn. by rewrite Hmatch.
Qed.

(** [refreshToken] ends without a result in exactly one situation: the
    guard has passed and the store has answered a record whose [_id] is
    empty.  Then nothing is drawn, signed or written. *)
Theorem refreshToken_without_result a p w :
  let r := run h (AuthService.refreshToken a p) w in
  outcome r = inr None ->
  exists payload user,
    calls r
    = [Called (JwtDecode a) (inr payload);
       Called (UsGetUserIfRefreshTokenMatches (get_opt payload "userId") p)
         (inr user)]
    /\ _id user = ""
    /\ truthy (of_arg a) && truthy (of_arg p)
         && truthy (get_opt payload "userId") = true.
Proof.
  explore h; intros ?; simplify_eq.
  eexists _, _. split; [reflexivity |]. split; [| done].
  match goal with H : negb (_ =? _) = false |- _ =>
    apply negb_false_iff in H; by apply String.eqb_eq in H end.
Qed.

(** A value is stored only once a token is signed: in a run of [login],
    [register], [refreshToken] or [logout] in which no signing has
    succeeded, every write of a refresh token, if any, is a clearing
    one.  ([silentLogin] writes before it signs.) *)
Theorem no_value_stored_before_signing q w :
  let r := run h (serve q) w in
  (forall a, q <> SilentLogin a) ->
  omap issued (calls r) = [] ->
  Forall (fun '(_, token) => token = None) (omap token_write (calls r)).
Proof.
  destruct q as [a | i [| tag] | c | a | a p]; intros r Hq.
  { by destruct (Hq a). }
  all: subst r; explore h; intros ?; simplify_eq; by repeat constructor.
Qed.

End Pairs.

(** ** Failures inside [login] *)

Section LoginFailures.

Context {W : Type} (h : Handler W).

Lemma verifyIdToken_creates_nothing idToken provider w :
  omap created (calls (run h (AuthService.verifyIdToken idToken provider) w))
  = [].
Proof. destruct provider; explore h; done. Qed.

Lemma login_body_creates_nothing tokenPayload w :
  omap created (calls (run h (AuthService.login_body tokenPayload) w)) = [].
Proof. destruct tokenPayload; explore h; done. Qed.

(** Whatever the statements of [login] after the verification throw, if
    it has no status 404 (a failed signing, a store error, the read of
    [email] on an absent claim) it is the result of [login], unchanged,
    and no user record is created. *)
Theorem login_other_failures_propagate idToken provider w tokenPayload error :
  let r1 := run h (AuthService.verifyIdToken idToken provider) w in
  let r2 := run h (AuthService.login_body tokenPayload) (world r1) in
  let r := run h (AuthService.login idToken provider) w in
  outcome r1 = inr tokenPayload ->
  outcome r2 = inl error ->
  is_not_found error = false ->
  r = continued r1 (failed r2 error)
  /\ omap created (calls r) = [].
Proof.
  intros r1 r2 r Hclaim Hbody Hother.
  assert (r = continued r1 (failed r2 error)) as ->.
  { subst r. pose proof (run_login h idToken provider w) as R. cbn zeta in R.
    fold r1 in R. rewrite Hclaim in R. fold r2 in R. rewrite Hbody in R.
    rewrite R. unfold AuthService.login_catch. rewrite Hother. cbn.
    unfold continued, failed. cbn. by rewrite app_nil_r. }
  split; [done |]. cbn. rewrite omap_app.
  subst r1 r2. by rewrite verifyIdToken_creates_nothing,
    login_body_creates_nothing.
Qed.

End LoginFailures.

(** ** The service against the store of §4.3 *)

Lemma ids_saveRefreshToken userId token us :
  _id <$> UserService.saveRefreshToken userId token us = _id <$> us.
Proof.
  induction us as [| u us IH]; cbn; [done |].
  case_bool_decide; cbn; [done | by rewrite IH].
Qed.

Lemma findById_elem u us :
  u ∈ us -> is_Some (UserService.findById (JStr (_id u)) us).
Proof.
  intros Hin. cbn.
  destruct (find _ us) as [u' |] eqn:Hfind; [eauto |].
  apply list_elem_of_In in Hin.
  pose proof (find_none _ _ Hfind _ Hin) as Hne. cbn in Hne.
  by rewrite String.eqb_refl in Hne.
Qed.

Lemma getByEmail_elem e us u :
  UserService.getByEmail e us = inr u -> u ∈ us.
Proof.
  unfold UserService.getByEmail.
  destruct (find _ us) as [u' |] eqn:Hfind; [| done].
  intros [= <-]. apply find_some in Hfind as [Hin _].
  by apply list_elem_of_In.
Qed.

Lemma token_of_saved_existing userId token us :
  is_Some (UserService.findById userId us) ->
  token_of userId (UserService.saveRefreshToken userId token us)
  = Some token.
Proof.
  intros [u Hu]. rewrite token_of_saveRefreshToken.
  unfold token_of. by rewrite Hu.
Qed.

Section StdExtras.

Context (L : Libs).

(** Against a store that answers the record it was asked for,
    [refreshToken] never ends without a result: it returns a pair or it
    throws. *)
Theorem refreshToken_is_never_silent a p w :
  outcome (run (std L) (AuthService.refreshToken a p) w) <> inr None.
Proof.
  explore_std; try done.
  match goal with
  | H : UserService.getUserIfRefreshTokenMatches _ _ _ = inr _ |- _ =>
      unfold UserService.getUserIfRefreshTokenMatches in H;
      repeat case_match; simplify_eq
  end.
  match goal with
  | H : UserService.findById _ _ = Some _ |- _ =>
      apply findById_id in H
  end.
  repeat match goal with
         | H : _ && _ = true |- _ => apply andb_prop in H as [? ?]
         end.
  match goal with
  | Hid : get_opt _ _ = JStr _, Ht : truthy (get_opt _ _) = true |- _ =>
      rewrite Hid in Ht; cbn in Ht; congruence
  end.
Qed.

(** [silentLogin] writes the new refresh token before it signs.  When
    signing fails (the secret is not configured, say), the caller gets the
    exception and no pair, yet the store already holds the new value: the
    refresh token the user had is gone. *)
Theorem silentLogin_rotates_before_signing a w payload user error :
  jwt_verify L a (config w !! "JWT_SECRET") (clock w) = inr payload ->
  UserService.findById (get payload "userId") (users w) = Some user ->
  jwt_sign L
    (set "exp" (JNum (clock w / 1000 + 300))
       (set "iat" (JNum (clock w / 1000)) payload))
    (config w !! "JWT_SECRET") = inl error ->
  let r := run (std L) (AuthService.silentLogin a) w in
  outcome r = inl error
  /\ token_of (get payload "userId") (users (world r))
     = Some (Some (uuid_at L (entropy w)))
  /\ omap issued (calls r) = [].
Proof.
  intros Hverify Hfind Hsign. cbn. rewrite Hverify. cbn.
  unfold UserService.getById. rewrite Hfind. cbn. rewrite Hsign. cbn.
  split; [done |]. split; [| done].
  apply token_of_saved_existing. by rewrite Hfind.
Qed.

(** [refreshToken] signs before it writes.  When signing fails, the
    caller gets the exception and the user collection is untouched: the
    presented refresh token is still the stored one. *)
Theorem refreshToken_failed_signing_keeps_the_token a p w payload uid user
    error :
  a <> "" ->
  p <> "" ->
  jwt_decode L (Some a) = Some payload ->
  get payload "userId" = JStr uid ->
  uid <> "" ->
  UserService.findById (JStr uid) (users w) = Some user ->
  storedRefreshToken user = Some p ->
  jwt_sign L
    (set "exp" (JNum (clock w / 1000 + 300))
       (set "iat" (JNum (clock w / 1000)) payload))
    (config w !! "JWT_SECRET") = inl error ->
  let r := run (std L) (AuthService.refreshToken (Some a) (Some p)) w in
  outcome r = inl error
  /\ users (world r) = users w
  /\ omap token_write (calls r) = [].
Proof.
  intros Ha Hp Hdecode Huid Hne Hfind Hstored Hsign.
  pose proof (findById_id _ _ _ Hfind) as [= Hid].
  apply String.eqb_neq in Ha, Hp, Hne.
  cbn. rewrite Hdecode. cbn. rewrite Huid. cbn. rewrite Ha, Hp, Hne. cbn.
  rewrite (getUserIfRefreshTokenMatches_stored _ _ _ _ Hfind Hstored). cbn.
  rewrite <- Hid, Hne. cbn. rewrite Hsign. cbn. done.
Qed.

(** [register] creates the record before it signs.  When signing fails,
    the caller gets the exception and the collection keeps a new record
    for the claim, without refresh token. *)
Theorem register_failed_signing_leaves_a_record claim w error :
  let id := fresh (_id <$> users w) in
  jwt_sign L
    (set "exp" (JNum (clock w / 1000 + 300))
       (set "iat" (JNum (clock w / 1000)) (set "userId" (JStr id) claim)))
    (config w !! "JWT_SECRET") = inl error ->
  let r := run (std L) (AuthService.register (Some claim)) w in
  outcome r = inl error
  /\ users (world r)
     = (users w ++ [mkUser id (get claim "name") (get claim "email") None])%list
  /\ omap token_write (calls r) = [].
Proof. intros id Hsign. cbn. fold id. rewrite Hsign. cbn. done. Qed.

(** The run of [login] when the lookup by email succeeds. *)
Lemma login_finds_the_record idToken w vouchedFor user token :
  let claim := set "email" (get vouchedFor "email")
                 (set "name" (get vouchedFor "name") ∅) in
  let uuid := uuid_at L (entropy w) in
  google_verifyIdToken L idToken (config w !! "GOOGLE_CLIENT_ID") (clock w)
  = inr (Some vouchedFor) ->
  UserService.getByEmail (get vouchedFor "email") (users w) = inr user ->
  jwt_sign L
    (set "exp" (JNum (clock w / 1000 + 300))
       (set "iat" (JNum (clock w / 1000))
          (set "userId" (JStr (_id user)) claim)))
    (config w !! "JWT_SECRET") = inr token ->
  let r := run (std L) (AuthService.login idToken Google) w in
  outcome r = inr (mkPair token uuid)
  /\ users (world r)
     = UserService.saveRefreshToken (JStr (_id user)) (Some uuid) (users w)
  /\ _id <$> users (world r) = _id <$> users w
  /\ token_of (JStr (_id user)) (users (world r)) = Some (Some uuid)
  /\ omap created (calls r) = [].
Proof.
  intros claim uuid Hgoogle Hlookup Hsign. cbn. rewrite Hgoogle. cbn.
  rewrite get_set_eq, Hlookup. cbn. fold claim. rewrite Hsign. cbn.
  split; [done |]. split; [done |].
  split; [apply ids_saveRefreshToken |]. split; [| done].
  apply token_of_saved_existing, findById_elem.
  by apply getByEmail_elem in Hlookup.
Qed.

(** [login] of a user who is registered creates no record: the token is
    signed for the id of the record found by email, the refresh token of
    that record is replaced, and the collection keeps its documents. *)
Theorem login_of_registered_user idToken w vouchedFor user token :
  let claim := set "email" (get vouchedFor "email")
                 (set "name" (get vouchedFor "name") ∅) in
  let uuid := uuid_at L (entropy w) in
  google_verifyIdToken L idToken (config w !! "GOOGLE_CLIENT_ID") (clock w)
  = inr (Some vouchedFor) ->
  UserService.getByEmail (get vouchedFor "email") (users w) = inr user ->
  jwt_sign L
    (set "exp" (JNum (clock w / 1000 + 300))
       (set "iat" (JNum (clock w / 1000))
          (set "userId" (JStr (_id user)) claim)))
    (config w !! "JWT_SECRET") = inr token ->
  let r := run (std L) (AuthService.login idToken Google) w in
  outcome r = inr (mkPair token uuid)
  /\ users (world r)
     = UserService.saveRefreshToken (JStr (_id user)) (Some uuid) (users w)
  /\ _id <$> users (world r) = _id <$> users w
  /\ token_of (JStr (_id user)) (users (world r)) = Some (Some uuid)
  /\ omap created (calls r) = [].
Proof. apply login_finds_the_record. Qed.

Lemma find_last {A : Type} (P : A -> bool) l x :
  find P l = None -> P x = true -> find P (l ++ [x]) = Some x.
Proof.
  induction l as [| y l IH]; cbn; intros Hnone Hx; [by rewrite Hx |].
  destruct (P y); [done | by apply IH].
Qed.

(** A first [login] registers the identity, and a second [login] of the
    same identity finds the record of the first: it creates nothing,
    signs for the same id and replaces the refresh token. *)
Theorem second_login_finds_the_registered_user idToken w vouchedFor token :
  let claim := set "email" (get vouchedFor "email")
                 (set "name" (get vouchedFor "name") ∅) in
  let id := fresh (_id <$> users w) in
  google_verifyIdToken L idToken (config w !! "GOOGLE_CLIENT_ID") (clock w)
  = inr (Some vouchedFor) ->
  UserService.getByEmail (get vouchedFor "email") (users w)
  = inl UserService.NotFound ->
  jwt_sign L
    (set "exp" (JNum (clock w / 1000 + 300))
       (set "iat" (JNum (clock w / 1000)) (set "userId" (JStr id) claim)))
    (config w !! "JWT_SECRET") = inr token ->
  let r1 := run (std L) (AuthService.login idToken Google) w in
  let r2 := run (std L) (AuthService.login idToken Google) (world r1) in
  outcome r1 = inr (mkPair token (uuid_at L (entropy w)))
  /\ omap created (calls r1)
     = [mkUser id (get claim "name") (get claim "email") None]
  /\ outcome r2 = inr (mkPair token (uuid_at L (S (entropy w))))
  /\ _id <$> users (world r2) = _id <$> users (world r1)
  /\ omap created (calls r2) = [].
Proof.
  intros claim id Hgoogle Hlookup Hsign.
  assert (run (std L) (AuthService.login idToken Google) w
          = mkRun (inr (mkPair token (uuid_at L (entropy w))))
              (mkWorld
                 (users w
                  ++ [mkUser id (get claim "name") (get claim "email")
                        (Some (uuid_at L (entropy w)))])
                 (clock w) (S (entropy w)) (config w))
              (calls (run (std L) (AuthService.login idToken Google) w)))
    as Hfirst.
  { cbn. rewrite Hgoogle. cbn. rewrite get_set_eq, Hlookup. cbn.
    fold claim id. rewrite Hsign. cbn.
    rewrite saveRefreshToken_last by apply infinite_is_fresh. done. }
  cbn zeta. split; [by rewrite Hfirst |]. split.
  { cbn. rewrite Hgoogle. cbn. rewrite get_set_eq, Hlookup. cbn.
    fold claim id. by rewrite Hsign. }
  rewrite Hfirst. cbn [world].
  set (new := mkUser id (get claim "name") (get claim "email")
                (Some (uuid_at L (entropy w)))).
  set (w1 := mkWorld _ _ _ _).
  assert (UserService.getByEmail (get vouchedFor "email") (users w1)
          = inr new) as Hfound.
  { unfold UserService.getByEmail in *. cbn [users w1].
    erewrite find_last; [done | by case_match |].
    subst new claim. cbn. rewrite get_set_eq. by apply bool_decide_eq_true_2. }
  destruct (login_finds_the_record idToken w1 vouchedFor new token)
    as (Hout & _ & Hids & _ & Hcreated); try done.
Qed.

End StdExtras.

Section RoundTrip.

Context (L : Libs).

(** An exchange is accepted when the presented value is the one stored
    for the user named in the decoded access token. *)
Lemma refreshToken_accepts a p w payload token :
  a <> "" ->
  p <> "" ->
  jwt_decode L (Some a) = Some payload ->
  truthy (get payload "userId") = true ->
  token_of (get payload "userId") (users w) = Some (Some p) ->
  jwt_sign L
    (set "exp" (JNum (clock w / 1000 + 300))
       (set "iat" (JNum (clock w / 1000)) payload))
    (config w !! "JWT_SECRET") = inr token ->
  outcome (run (std L) (AuthService.refreshToken (Some a) (Some p)) w)
  = inr (Some (mkPair token (uuid_at L (entropy w)))).
Proof.
  intros Ha Hp Hdecode Htruthy Hstored Hsign.
  unfold token_of in Hstored.
  destruct (UserService.findById _ (users w)) as [user |] eqn:Hfind;
    [| done].
  injection Hstored as Hstored.
  pose proof (findById_id _ _ _ Hfind) as Hid.
  apply String.eqb_neq in Ha, Hp.
  cbn. rewrite Hdecode. cbn. rewrite Htruthy, Ha, Hp. cbn.
  rewrite (getUserIfRefreshTokenMatches_stored _ _ _ _ Hfind Hstored). cbn.
  rewrite Hid in Htruthy. cbn in Htruthy. rewrite Htruthy. cbn.
  by rewrite Hsign.
Qed.

Lemma findById_last id n e t us :
  is_Some (UserService.findById (JStr id) (us ++ [mkUser id n e t])).
Proof.
  apply (findById_elem (mkUser id n e t)), elem_of_app. right.
  by apply list_elem_of_singleton.
Qed.

(** What a successful request leaves: one signed token, one write, for
    the same user, who now holds the returned refresh token. *)
Lemma successful_pair_is_stored q w pair :
  let r := run (std L) (serve q) w in
  outcome r = inr (Some pair) ->
  exists claims,
    omap issued (calls r) = [(claims, accessToken pair)]
    /\ omap token_write (calls r)
       = [(get claims "userId", Some (refreshToken pair))]
    /\ token_of (get claims "userId") (users (world r))
       = Some (Some (refreshToken pair))
    /\ clock (world r) = clock w
    /\ config (world r) = config w.
Proof.
  destruct q as [a | i [| tag] | c | a | a p]; explore_std; try done.
  all: intros ?; simplify_eq.
  all: try match goal with
         | H : UserService.getUserIfRefreshTokenMatches _ ?p _ = inr _ |- _ =>
             destruct p;
             [ apply getUserIfRefreshTokenMatches_inr in H as [Hfind _];
               pose proof (findById_id _ _ _ Hfind) as Hid;
               destruct (jwt_decode L a); cbn in Hid |- *;
               [| discriminate Hid]
             | unfold UserService.getUserIfRefreshTokenMatches in H;
               repeat case_match; discriminate ]
         end.
  all: eexists; split; [reflexivity |].
  all: rewrite ?(get_set_ne "exp"), ?(get_set_ne "iat"), ?get_set_eq by done.
  all: try match goal with Hid : get _ "userId" = JStr _ |- _ =>
             rewrite Hid in * end.
  all: split; [reflexivity |]; split; [| done].
  all: apply token_of_saved_existing.
  all: try match goal with
         | H : UserService.getById _ _ = inr _ |- _ =>
             unfold UserService.getById in H; by case_match
         | H : UserService.getByEmail _ _ = inr _ |- _ =>
             by apply getByEmail_elem, findById_elem in H
         | H : UserService.findById _ _ = Some _ |- _ =>
             rewrite <- (findById_id _ _ _ H); by rewrite H
         end.
  all: apply findById_last.
Qed.

(** The two tokens of a returned pair belong to one user: the [userId]
    signed into the access token is the user for whom the refresh token
    was written, that write is the only one of the request, and the
    written value is now the one stored for that user. *)
Theorem pair_is_bound_to_one_user q w pair :
  let r := run (std L) (serve q) w in
  outcome r = inr (Some pair) ->
  exists claims,
    omap issued (calls r) = [(claims, accessToken pair)]
    /\ omap token_write (calls r)
       = [(get claims "userId", Some (refreshToken pair))]
    /\ token_of (get claims "userId") (users (world r))
       = Some (Some (refreshToken pair)).
Proof.
  intros r Hok.
  destruct (successful_pair_is_stored q w pair Hok)
    as (claims & Hissued & Hwrite & Hstored & _).
  eauto.
Qed.

(** The refresh token a request returns opens the next exchange: when it
    is presented with an access token that decodes to the [userId] signed
    into the returned access token, the exchange returns the next pair
    (provided both values and the [userId] are non-empty and signing
    succeeds). *)
Theorem returned_refresh_token_is_accepted_next q w pair :
  let r := run (std L) (serve q) w in
  outcome r = inr (Some pair) ->
  exists claims,
    omap issued (calls r) = [(claims, accessToken pair)]
    /\ forall a payload token,
         a <> "" ->
         refreshToken pair <> "" ->
         jwt_decode L (Some a) = Some payload ->
         get payload "userId" = get claims "userId" ->
         truthy (get claims "userId") = true ->
         jwt_sign L
           (set "exp" (JNum (clock w / 1000 + 300))
              (set "iat" (JNum (clock w / 1000)) payload))
           (config w !! "JWT_SECRET") = inr token ->
         outcome (run (std L)
                    (AuthService.refreshToken (Some a)
                       (Some (refreshToken pair)))
                    (world r))
         = inr (Some (mkPair token (uuid_at L (entropy (world r))))).
Proof.
  intros r Hok.
  destruct (successful_pair_is_stored q w pair Hok)
    as (claims & Hissued & _ & Hstored & Hclock & Hconfig).
  fold r in Hissued, Hstored, Hclock, Hconfig.
  exists claims. split; [done |].
  intros a payload token Ha Hp Hdecode Huser Htruthy Hsign.
  apply (refreshToken_accepts _ _ _ payload); try done.
  - by rewrite Huser.
  - by rewrite Huser.
  - by rewrite Hclock, Hconfig.
Qed.

End RoundTrip.

(** * Concrete runs of the further properties *)

(** Bob's expired access token. *)
Lemma rejected_access_token_reaches_no_store_witness :
  let v := run (std Demo.libs) (AuthService.verifyAccessToken "bob.expired")
             Demo.world in
  run (std Demo.libs) (AuthService.silentLogin "bob.expired") Demo.world
  = failed v AccessTokenInvalid
  /\ run (std Demo.libs) (AuthService.logout "bob.expired") Demo.world
     = failed v AccessTokenInvalid
  /\ omap drawn (calls v) = []
  /\ Forall (fun c => is_store_call c = false) (calls v).
Proof.
  refine (rejected_access_token_reaches_no_store (std Demo.libs)
            "bob.expired" Demo.world AccessTokenInvalid _).
  vm_compute; reflexivity.
Defined.

(** Bob logs out. *)
Lemma logout_clears_the_verified_user_witness :
  let r := run (std Demo.libs) (AuthService.logout "bob.valid") Demo.world in
  exists payload,
    omap verified (calls r) = [payload]
    /\ omap token_write (calls r) = [(get payload "userId", None)]
    /\ omap issued (calls r) = []
    /\ omap drawn (calls r) = [].
Proof.
  refine (logout_clears_the_verified_user (std Demo.libs) "bob.valid"
            Demo.world _).
  vm_compute; reflexivity.
Defined.

(** Bob's login against the store that loses his record: two uuids are
    drawn and two writes attempted, the pair carries the second. *)
Lemma returned_refresh_token_is_the_stored_one_witness :
  let r := run (lossy Demo.libs) (serve (Login "google.bob" Google))
             (Demo.world, 1%nat) in
  let pair := mkPair "jwt/0/1700000000/1700000300" "uuid-1" in
  last (omap drawn (calls r)) = Some (refreshToken pair)
  /\ exists userId,
       last (omap token_write (calls r))
       = Some (userId, Some (refreshToken pair)).
Proof.
  refine (returned_refresh_token_is_the_stored_one (lossy Demo.libs)
            (Login "google.bob" Google) (Demo.world, 1%nat)
            (mkPair "jwt/0/1700000000/1700000300" "uuid-1") _).
  vm_compute; reflexivity.
Defined.

(** Google's payload for Ann carries [sub]; the claim does not. *)
Lemma verifyIdToken_keeps_name_and_email_witness :
  let r := run (std Demo.libs) (AuthService.verifyIdToken "google.ann" Google)
             Demo.world in
  Google = Google
  /\ exists payload,
       omap vouched (calls r) = [payload]
       /\ get Demo.ann "name" = get payload "name"
       /\ get Demo.ann "email" = get payload "email"
       /\ forall k, k <> "name" -> k <> "email" -> get Demo.ann k = JUndefined.
Proof.
  refine (verifyIdToken_keeps_name_and_email (std Demo.libs) "google.ann"
            Google Demo.world Demo.ann _).
  vm_compute; reflexivity.
Defined.

(** Bob's silent login. *)
Lemma silentLogin_reissues_the_verified_claims_witness :
  let r := run (std Demo.libs) (AuthService.silentLogin "bob.valid")
             Demo.world in
  let pair := mkPair "jwt/u1/1700000000/1700000300" "uuid-0" in
  exists payload claims,
    omap verified (calls r) = [payload]
    /\ omap issued (calls r) = [(claims, accessToken pair)]
    /\ carries payload claims
    /\ omap token_write (calls r)
       = [(get payload "userId", Some (refreshToken pair))].
Proof.
  refine (silentLogin_reissues_the_verified_claims (std Demo.libs)
            "bob.valid" Demo.world
            (mkPair "jwt/u1/1700000000/1700000300" "uuid-0") _).
  vm_compute; reflexivity.
Defined.

(** Bob's exchange with an expired access token. *)
Lemma refreshToken_signs_the_decoded_claims_witness :
  let r := run (std Demo.libs)
             (AuthService.refreshToken (Some "bob.expired") (Some "r1"))
             Demo.world in
  let pair := mkPair "jwt/u1/1700000000/1700000300" "uuid-0" in
  exists payload claims,
    omap decoded (calls r) = [payload]
    /\ omap issued (calls r) = [(claims, accessToken pair)]
    /\ carries payload claims
    /\ omap verified (calls r) = []
    /\ Forall (fun c => is_verify_call c = false) (calls r).
Proof.
  refine (refreshToken_signs_the_decoded_claims (std Demo.libs)
            (Some "bob.expired") (Some "r1") Demo.world
            (mkPair "jwt/u1/1700000000/1700000300" "uuid-0") _).
  vm_compute; reflexivity.
Defined.

(** Bob presents a refresh token that is not the stored one. *)
Lemma refreshToken_refusal_propagates_witness :
  run (std Demo.libs)
    (AuthService.refreshToken (Some "bob.valid") (Some "r0")) Demo.world
  = mkRun (inl UserService.NotFound) Demo.world
      [Called (JwtDecode (Some "bob.valid")) (inr (Some Demo.bob_claims));
       Called
         (UsGetUserIfRefreshTokenMatches
            (get_opt (Some Demo.bob_claims) "userId") (Some "r0"))
         (inl UserService.NotFound)].
Proof.
  refine (refreshToken_refusal_propagates (std Demo.libs) (Some "bob.valid")
            (Some "r0") Demo.world (Some Demo.bob_claims) Demo.world
            UserService.NotFound Demo.world _ _ _);
    vm_compute; reflexivity.
Defined.

(** The store that answers a record without id. *)
Lemma refreshToken_without_result_witness :
  let r := run (Faults.blank Demo.libs)
             (AuthService.refreshToken (Some "bob.valid") (Some "r1"))
             Demo.world in
  exists payload user,
    calls r
    = [Called (JwtDecode (Some "bob.valid")) (inr payload);
       Called
         (UsGetUserIfRefreshTokenMatches (get_opt payload "userId")
            (Some "r1"))
         (inr user)]
    /\ _id user = ""
    /\ truthy (of_arg (Some "bob.valid")) && truthy (of_arg (Some "r1"))
         && truthy (get_opt payload "userId") = true.
Proof.
  refine (refreshToken_without_result (Faults.blank Demo.libs)
            (Some "bob.valid") (Some "r1") Demo.world _).
  vm_compute; reflexivity.
Defined.

(** A registration without signing secret. *)
Lemma no_value_stored_before_signing_witness :
  let r := run (std Demo.libs) (serve (Register Demo.ann)) Faults.no_secret in
  Forall (fun '(_, token) => token = None) (omap token_write (calls r)).
Proof.
  refine (no_value_stored_before_signing (std Demo.libs) (Register Demo.ann)
            Faults.no_secret _ _).
  - discriminate.
  - vm_compute; reflexivity.
Defined.

(** Bob's login without signing secret: the exception of the signing
    library reaches the caller. *)
Lemma login_other_failures_propagate_witness :
  let h := std Demo.libs in
  let r1 := run h (AuthService.verifyIdToken "google.bob" Google)
              Faults.no_secret in
  let r2 := run h (AuthService.login_body (Some Demo.bob)) (world r1) in
  let r := run h (AuthService.login "google.bob" Google) Faults.no_secret in
  r = continued r1
        (failed r2 (Error "secretOrPrivateKey must have a value"))
  /\ omap created (calls r) = [].
Proof.
  refine (login_other_failures_propagate (std Demo.libs) "google.bob" Google
            Faults.no_secret (Some Demo.bob)
            (Error "secretOrPrivateKey must have a value") _ _ _);
    vm_compute; reflexivity.
Defined.

(** Bob's silent login without signing secret: [r1] is replaced by a
    uuid he never receives. *)
Lemma silentLogin_rotates_before_signing_witness :
  let r := run (std Demo.libs) (AuthService.silentLogin "bob.valid")
             Faults.no_secret in
  outcome r = inl (Error "secretOrPrivateKey must have a value")
  /\ token_of (get Demo.bob_claims "userId") (users (world r))
     = Some (Some (uuid_at Demo.libs (entropy Faults.no_secret)))
  /\ omap issued (calls r) = [].
Proof.
  refine (silentLogin_rotates_before_signing Demo.libs "bob.valid"
            Faults.no_secret Demo.bob_claims
            (mkUser "u1" (JStr "Bob") (JStr "bob@x.com") (Some "r1"))
            (Error "secretOrPrivateKey must have a value") _ _ _);
    vm_compute; reflexivity.
Defined.

(** Bob's exchange without signing secret: [r1] stays. *)
Lemma refreshToken_failed_signing_keeps_the_token_witness :
  let r := run (std Demo.libs)
             (AuthService.refreshToken (Some "bob.valid") (Some "r1"))
             Faults.no_secret in
  outcome r = inl (Error "secretOrPrivateKey must have a value")
  /\ users (world r) = users Faults.no_secret
  /\ omap token_write (calls r) = [].
Proof.
  refine (refreshToken_failed_signing_keeps_the_token Demo.libs "bob.valid"
            "r1" Faults.no_secret Demo.bob_claims "u1"
            (mkUser "u1" (JStr "Bob") (JStr "bob@x.com") (Some "r1"))
            (Error "secretOrPrivateKey must have a value") _ _ _ _ _ _ _ _);
    try discriminate; vm_compute; reflexivity.
Defined.

(** Ann's registration without signing secret. *)
Lemma register_failed_signing_leaves_a_record_witness :
  let r := run (std Demo.libs) (AuthService.register (Some Demo.ann))
             Faults.no_secret in
  outcome r = inl (Error "secretOrPrivateKey must have a value")
  /\ users (world r)
     = (users Faults.no_secret
        ++ [mkUser (fresh (_id <$> users Faults.no_secret))
              (get Demo.ann "name") (get Demo.ann "email") None])%list
  /\ omap token_write (calls r) = [].
Proof.
  refine (register_failed_signing_leaves_a_record Demo.libs Demo.ann
            Faults.no_secret (Error "secretOrPrivateKey must have a value")
            _).
  vm_compute; reflexivity.
Defined.

(** Bob, who is registered, logs in. *)
Lemma login_of_registered_user_witness :
  let r := run (std Demo.libs) (AuthService.login "google.bob" Google)
             Demo.world in
  let bob := mkUser "u1" (JStr "Bob") (JStr "bob@x.com") (Some "r1") in
  outcome r = inr (mkPair "jwt/u1/1700000000/1700000300" "uuid-0")
  /\ users (world r)
     = UserService.saveRefreshToken (JStr (_id bob)) (Some "uuid-0")
         (users Demo.world)
  /\ _id <$> users (world r) = _id <$> users Demo.world
  /\ token_of (JStr (_id bob)) (users (world r)) = Some (Some "uuid-0")
  /\ omap created (calls r) = [].
Proof.
  refine (login_of_registered_user Demo.libs "google.bob" Demo.world
            (<["sub" := JStr "215"]> Demo.bob)
            (mkUser "u1" (JStr "Bob") (JStr "bob@x.com") (Some "r1"))
            "jwt/u1/1700000000/1700000300" _ _ _);
    vm_compute; reflexivity.
Defined.

(** Ann's first login. *)
Lemma pair_is_bound_to_one_user_witness :
  let r := run (std Demo.libs) (serve (Login "google.ann" Google))
             Demo.world in
  let pair := mkPair "jwt/0/1700000000/1700000300" "uuid-0" in
  exists claims,
    omap issued (calls r) = [(claims, accessToken pair)]
    /\ omap token_write (calls r)
       = [(get claims "userId", Some (refreshToken pair))]
    /\ token_of (get claims "userId") (users (world r))
       = Some (Some (refreshToken pair)).
Proof.
  refine (pair_is_bound_to_one_user Demo.libs (Login "google.ann" Google)
            Demo.world (mkPair "jwt/0/1700000000/1700000300" "uuid-0") _).
  vm_compute; reflexivity.
Defined.

(** Bob's exchange, whose refresh token opens the next one. *)
Lemma returned_refresh_token_is_accepted_next_witness :
  let r := run (std Demo.libs)
             (serve (RefreshExchange (Some "bob.expired") (Some "r1")))
             Demo.world in
  let pair := mkPair "jwt/u1/1700000000/1700000300" "uuid-0" in
  exists claims,
    omap issued (calls r) = [(claims, accessToken pair)]
    /\ forall a payload token,
         a <> "" ->
         refreshToken pair <> "" ->
         jwt_decode Demo.libs (Some a) = Some payload ->
         get payload "userId" = get claims "userId" ->
         truthy (get claims "userId") = true ->
         jwt_sign Demo.libs
           (set "exp" (JNum (clock Demo.world / 1000 + 300))
              (set "iat" (JNum (clock Demo.world / 1000)) payload))
           (config Demo.world !! "JWT_SECRET") = inr token ->
         outcome (run (std Demo.libs)
                    (AuthService.refreshToken (Some a)
                       (Some (refreshToken pair)))
                    (world r))
         = inr (Some (mkPair token (uuid_at Demo.libs (entropy (world r))))).
Proof.
  refine (returned_refresh_token_is_accepted_next Demo.libs
            (RefreshExchange (Some "bob.expired") (Some "r1")) Demo.world
            (mkPair "jwt/u1/1700000000/1700000300" "uuid-0") _).
  vm_compute; reflexivity.
Defined.

(** The next exchange of Bob, with the returned [uuid-0]. *)
Example second_exchange_of_bob :
  let r := run (std Demo.libs)
             (AuthService.refreshToken (Some "bob.expired") (Some "r1"))
             Demo.world in
  outcome (run (std Demo.libs)
             (AuthService.refreshToken (Some "bob.valid") (Some "uuid-0"))
             (world r))
  = inr (Some (mkPair "jwt/u1/1700000000/1700000300" "uuid-1")).
Proof. vm_compute. reflexivity. Qed.

(** Ann logs in twice. *)
Lemma second_login_finds_the_registered_user_witness :
  let claim := set "email" (get (<["sub" := JStr "108"]> Demo.ann) "email")
                 (set "name" (get (<["sub" := JStr "108"]> Demo.ann) "name")
                    ∅) in
  let id := fresh (_id <$> users Demo.world) in
  let r1 := run (std Demo.libs) (AuthService.login "google.ann" Google)
              Demo.world in
  let r2 := run (std Demo.libs) (AuthService.login "google.ann" Google)
              (world r1) in
  outcome r1 = inr (mkPair "jwt/0/1700000000/1700000300"
                      (uuid_at Demo.libs (entropy Demo.world)))
  /\ omap created (calls r1)
     = [mkUser id (get claim "name") (get claim "email") None]
  /\ outcome r2 = inr (mkPair "jwt/0/1700000000/1700000300"
                         (uuid_at Demo.libs (S (entropy Demo.world))))
  /\ _id <$> users (world r2) = _id <$> users (world r1)
  /\ omap created (calls r2) = [].
Proof.
  refine (second_login_finds_the_registered_user Demo.libs "google.ann"
            Demo.world (<["sub" := JStr "108"]> Demo.ann)
            "jwt/0/1700000000/1700000300" _ _ _);
    vm_compute; reflexivity.
Defined.
